(** * Tabungan Bersama: the shared savings ledger

    A shallow embedding of the ledger's storage schema with its row-level
    security policies (the SQL migration) and of the [SavingsTracker]
    component that reads and writes it (src/components/SavingsTracker.tsx).

    - JavaScript numbers are IEEE-754 binary64 values ([spec_float] at
      precision 53, maximal exponent 1024);
    - the store is a pair of tables guarded by declarative policies that are
      pure functions of (caller identity, row);
    - the component's handlers are programs in a small state-and-exception
      monad over the component state, the store, the console and the wire. *)

From Stdlib Require Import ZArith List String Ascii Bool Lia Permutation.
From Stdlib Require Import Sorting.Sorted DecimalString DecimalNat.
From Stdlib Require Import Floats.SpecFloat.
Import ListNotations.

Local Open Scope Z_scope.
Local Open Scope string_scope.
Local Open Scope list_scope.

(** ** JavaScript numbers *)

Module Number.

Definition prec : Z := 53.
Definition emax : Z := 1024.

Definition t : Type := spec_float.

Definition zero : t := S754_zero false.
Definition NaN : t := S754_nan.

(** [a + b] on numbers. *)
Definition add (a b : t) : t := SFadd prec emax a b.

(** [a > b]; false as soon as one side is NaN. *)
Definition gtb (a b : t) : bool := SFltb b a.

(** The number nearest to an integer (ties to even). *)
Definition of_Z (n : Z) : t := binary_normalize prec emax n 0 false.

(** The number nearest to [m / d] for positive [d], with the sign [s]. *)
Definition of_ratio (s : bool) (m d : positive) : t :=
  SFdiv prec emax (S754_finite s m 0) (S754_finite false d 0).

(** The number nearest to [(-1)^s * m * 10^e]. *)
Definition of_decimal (s : bool) (m : Z) (e : Z) : t :=
  match m with
  | Zpos p =>
      match e with
      | Zneg k => of_ratio s p (Pos.pow 10 k)
      | _ => binary_normalize prec emax
               (cond_Zopp s (Zpos p * Z.pow 10 e)) 0 false
      end
  | _ => S754_zero s
  end.

(** The integer part of a finite number, 0 for the others. *)
Definition to_Z (a : t) : Z :=
  match a with
  | S754_finite s m e => cond_Zopp s (Z.shiftl (Zpos m) e)
  | _ => 0
  end.

(** [p] with [j] more zero bits at its end. *)
Definition shl (p : positive) (j : nat) : positive := Nat.iter j xO p.

(** How many bits [p] has. *)
Definition bits (p : positive) : nat := Pos.to_nat (digits2_pos p).

(** The number that is the positive integer [n], for [n] below 2^53: the
    mantissa is [n] padded to 53 bits. *)
Definition canon (n : positive) : t :=
  S754_finite false (shl n (53 - bits n)) (Z.of_nat (bits n) - 53).

End Number.

(** ** Strings: whitespace, [trim] and [parseFloat] *)

Module Str.

(** The ASCII members of the ECMAScript WhiteSpace and LineTerminator
    classes: TAB, LF, VT, FF, CR and SP. *)
Definition is_space (c : ascii) : bool :=
  let n := nat_of_ascii c in
  (Nat.eqb n 9 || Nat.eqb n 10 || Nat.eqb n 11 || Nat.eqb n 12
   || Nat.eqb n 13 || Nat.eqb n 32)%bool.

Fixpoint trimStart (cs : list ascii) : list ascii :=
  match cs with
  | c :: rest => if is_space c then trimStart rest else cs
  | [] => []
  end.

Definition trimEnd (cs : list ascii) : list ascii :=
  rev (trimStart (rev cs)).

(** [s.trim()] *)
Definition trim (s : string) : string :=
  string_of_list_ascii (trimEnd (trimStart (list_ascii_of_string s))).

Definition digit_of (c : ascii) : option Z :=
  let n := nat_of_ascii c in
  if (Nat.leb 48 n && Nat.leb n 57)%bool then Some (Z.of_nat (n - 48))
  else None.

(** The longest run of decimal digits at the head of [cs]: its value
    continuing from [acc], how many digits were read, and what follows. *)
Fixpoint digits (cs : list ascii) (acc : Z) (n : Z)
  : Z * Z * list ascii :=
  match cs with
  | c :: rest =>
      match digit_of c with
      | Some d => digits rest (10 * acc + d) (n + 1)
      | None => (acc, n, cs)
      end
  | [] => (acc, n, [])
  end.

(** ExponentPart: [e] or [E], an optional sign, at least one digit.
    Without a digit the exponent is not part of the literal. *)
Definition exponent (cs : list ascii) : Z :=
  match cs with
  | c :: rest =>
      if (Ascii.eqb c "e" || Ascii.eqb c "E")%bool then
        match rest with
        | s :: rest' =>
            if Ascii.eqb s "-" then
              let '(v, n, _) := digits rest' 0 0 in
              if Z.eqb n 0 then 0 else - v
            else if Ascii.eqb s "+" then
              let '(v, n, _) := digits rest' 0 0 in
              if Z.eqb n 0 then 0 else v
            else
              let '(v, n, _) := digits rest 0 0 in
              if Z.eqb n 0 then 0 else v
        | [] => 0
        end
      else 0
  | [] => 0
  end.

Fixpoint starts_with (p cs : list ascii) : bool :=
  match p, cs with
  | [], _ => true
  | a :: p', c :: cs' => (Ascii.eqb a c && starts_with p' cs')%bool
  | _ :: _, [] => false
  end.

(** StrUnsignedDecimalLiteral, longest prefix; [None] when no prefix of
    the input is a literal. *)
Definition unsigned_literal (s : bool) (cs : list ascii) : option Number.t :=
  if starts_with (list_ascii_of_string "Infinity") cs
  then Some (S754_infinity s)
  else
    let '(ip, ni, r1) := digits cs 0 0 in
    match r1 with
    | "."%char :: r2 =>
        let '(m, nf, r3) := digits r2 ip 0 in
        if (Z.eqb ni 0 && Z.eqb nf 0)%bool then None
        else Some (Number.of_decimal s m (exponent r3 - nf))
    | _ =>
        if Z.eqb ni 0 then None
        else Some (Number.of_decimal s ip (exponent r1))
    end.

(** [parseFloat(s)]: leading white space is skipped, the longest prefix
    that is a decimal literal is converted, and NaN is the answer when
    there is none. *)
Definition parseFloat (s : string) : Number.t :=
  let cs := trimStart (list_ascii_of_string s) in
  let r :=
    match cs with
    | "-"%char :: rest => unsigned_literal true rest
    | "+"%char :: rest => unsigned_literal false rest
    | _ => unsigned_literal false cs
    end in
  match r with
  | Some x => x
  | None => Number.NaN
  end.

End Str.

(** ** Rows (lib/supabase.ts, and the two CREATE TABLE statements) *)

Definition uuid : Type := string.
Definition timestamptz : Type := Z.

Module Profile.
Record t : Type := mk {
  id : uuid;
  name : string;
  created_at : timestamptz
}.
End Profile.

(** [amount] is a numeric column that travels as a JSON number: a row holds
    the binary64 value the client sent and reads back. *)
Module Saving.
Record t : Type := mk {
  id : uuid;
  user_id : uuid;
  amount : Number.t;
  description : string;
  created_at : timestamptz
}.
End Saving.

(** ** Row-level security

    A request reaches the store as one of two roles. [None] is the [anon]
    role, for which [auth.uid()] is NULL; [Some u] is the [authenticated]
    role with [auth.uid() = u]. *)

Module Rls.

Inductive role : Type := anon | authenticated.
Inductive command : Type := SELECT | INSERT | UPDATE | DELETE.

Definition caller : Type := option uuid.

Definition role_of (c : caller) : role :=
  match c with
  | Some _ => authenticated
  | None => anon
  end.

Definition role_eqb (a b : role) : bool :=
  match a, b with
  | anon, anon | authenticated, authenticated => true
  | _, _ => false
  end.

Definition command_eqb (a b : command) : bool :=
  match a, b with
  | SELECT, SELECT | INSERT, INSERT | UPDATE, UPDATE | DELETE, DELETE => true
  | _, _ => false
  end.

(** [auth.uid() = x]. A comparison with NULL is not true. *)
Definition uid_is (c : caller) (x : uuid) : bool :=
  match c with
  | Some u => String.eqb u x
  | None => false
  end.

(** CREATE POLICY name ON table FOR cmd TO role USING (..) WITH CHECK (..) *)
Record policy (row : Type) : Type := mk_policy {
  pol_name : string;
  pol_for : command;
  pol_to : role;
  pol_using : option (caller -> row -> bool);
  pol_with_check : option (caller -> row -> bool)
}.
Arguments mk_policy {row}.
Arguments pol_name {row}.
Arguments pol_for {row}.
Arguments pol_to {row}.
Arguments pol_using {row}.
Arguments pol_with_check {row}.

Section Table.
Context {row : Type}.
Variable policies : list (policy row).

Definition applies (cmd : command) (c : caller) (p : policy row) : bool :=
  command_eqb (pol_for p) cmd && role_eqb (pol_to p) (role_of c).

Definition using_of (p : policy row) (c : caller) (r : row) : bool :=
  match pol_using p with
  | Some f => f c r
  | None => true
  end.

(** A policy without WITH CHECK checks new rows with its USING clause. *)
Definition check_of (p : policy row) (c : caller) (r : row) : bool :=
  match pol_with_check p with
  | Some f => f c r
  | None => using_of p c r
  end.

(** With row security enabled a row passes when some policy for the
    command and the role accepts it; with no such policy it is denied. *)
Definition passes_using (cmd : command) (c : caller) (r : row) : bool :=
  existsb (fun p => applies cmd c p && using_of p c r) policies.

Definition passes_check (cmd : command) (c : caller) (r : row) : bool :=
  existsb (fun p => applies cmd c p && check_of p c r) policies.

Definition visible (c : caller) (r : row) : bool :=
  passes_using SELECT c r.

(** UPDATE and DELETE read the rows they touch, so they see only the
    rows SELECT would, and of those the ones their own USING accepts. *)
Definition updatable (c : caller) (r : row) : bool :=
  visible c r && passes_using UPDATE c r.

Definition deletable (c : caller) (r : row) : bool :=
  visible c r && passes_using DELETE c r.

Definition insertable (c : caller) (r : row) : bool :=
  passes_check INSERT c r.

Definition update_accepted (c : caller) (r : row) : bool :=
  passes_check UPDATE c r.
End Table.

End Rls.

(** ** The schema: policies of the two tables *)

Module Schema.
Import Rls.

Definition profiles_policies : list (policy Profile.t) :=
  [ mk_policy "Users can view all profiles" SELECT authenticated
      (Some (fun _ _ => true)) None;
    mk_policy "Users can update own profile" UPDATE authenticated
      (Some (fun c r => uid_is c (Profile.id r)))
      (Some (fun c r => uid_is c (Profile.id r)));
    mk_policy "Users can insert own profile" INSERT authenticated
      None
      (Some (fun c r => uid_is c (Profile.id r))) ].

Definition savings_policies : list (policy Saving.t) :=
  [ mk_policy "Authenticated users can view all savings" SELECT authenticated
      (Some (fun _ _ => true)) None;
    mk_policy "Users can insert own savings" INSERT authenticated
      None
      (Some (fun c r => uid_is c (Saving.user_id r)));
    mk_policy "Users can update own savings" UPDATE authenticated
      (Some (fun c r => uid_is c (Saving.user_id r)))
      (Some (fun c r => uid_is c (Saving.user_id r)));
    mk_policy "Users can delete own savings" DELETE authenticated
      (Some (fun c r => uid_is c (Saving.user_id r))) None ].

(** CHECK (amount > 0) *)
Definition amount_check (a : Number.t) : bool := Number.gtb a Number.zero.

End Schema.

(** ** The database: tables, constraints and statements *)

Module Db.
Import Rls Schema.

Record t : Type := mk {
  auth_users : list uuid;
  profiles : list Profile.t;
  savings : list Saving.t
}.

Definition empty : t := mk [] [] [].

Inductive error : Type :=
| insufficient_privilege (table : string)
(* new row violates row-level security policy *)
| not_null_violation (column : string)
| check_violation (constraint : string)
| unique_violation (constraint : string)
| foreign_key_violation (constraint : string).

(** What the server fills in for a statement: [gen_random_uuid()] for
    each row of it, and [now()], which is the same for all its rows. *)
Record defaults : Type := mk_defaults {
  gen_random_uuid : nat -> uuid;
  now : timestamptz
}.

Definition has_user (db : t) (u : uuid) : bool :=
  existsb (String.eqb u) (auth_users db).

Definition profile_ids (ps : list Profile.t) : list uuid :=
  map Profile.id ps.

Definition saving_ids (ss : list Saving.t) : list uuid :=
  map Saving.id ss.

Definition mem (u : uuid) (l : list uuid) : bool := existsb (String.eqb u) l.

Fixpoint distinct (l : list uuid) : bool :=
  match l with
  | [] => true
  | x :: l' => negb (mem x l') && distinct l'
  end.

(** *** ORDER BY created_at *)

Section OrderBy.
Context {row : Type}.
Variable key : row -> timestamptz.
Variable ascending : bool.

Definition before (a b : row) : bool :=
  if ascending then Z.leb (key a) (key b) else Z.leb (key b) (key a).

Fixpoint place (x : row) (l : list row) : list row :=
  match l with
  | [] => [x]
  | y :: l' => if before x y then x :: l else y :: place x l'
  end.

Definition order_by (l : list row) : list row := fold_right place [] l.

(** [a] may come before [b] in the requested order. *)
Definition ordered (a b : row) : Prop := before a b = true.
End OrderBy.

(** *** SELECT *)

Definition select_profiles (c : caller) (pred : Profile.t -> bool) (db : t)
  : list Profile.t :=
  filter (fun r => visible profiles_policies c r && pred r) (profiles db).

Definition select_savings (c : caller) (pred : Saving.t -> bool) (db : t)
  : list Saving.t :=
  filter (fun r => visible savings_policies c r && pred r) (savings db).

(** *** INSERT INTO savings

    The columns a statement may give; an absent [id], [description] or
    [created_at] takes the column default. [amount] absent is NULL. *)

Record saving_values : Type := mk_saving_values {
  v_id : option uuid;
  v_user_id : option uuid;
  v_amount : option Number.t;
  v_description : option string;
  v_created_at : option timestamptz
}.

Definition or_default {A : Type} (o : option A) (d : A) : A :=
  match o with
  | Some a => a
  | None => d
  end.

(** The statement is atomic: on an error the database is as before.
    NOT NULL is looked at first here and the policy next; Postgres looks
    at the policy first, which only changes the error that is reported
    when a row fails both. *)
Definition insert_saving (c : caller) (fresh : uuid) (now : timestamptz)
  (v : saving_values) (db : t) : option error * t :=
  match v_user_id v, v_amount v with
  | None, _ => (Some (not_null_violation "user_id"), db)
  | _, None => (Some (not_null_violation "amount"), db)
  | Some u, Some a =>
      let r := Saving.mk (or_default (v_id v) fresh) u a
                 (or_default (v_description v) "")
                 (or_default (v_created_at v) now) in
      if negb (insertable savings_policies c r)
      then (Some (insufficient_privilege "savings"), db)
      else if negb (amount_check a)
      then (Some (check_violation "savings_amount_check"), db)
      else if mem (Saving.id r) (saving_ids (savings db))
      then (Some (unique_violation "savings_pkey"), db)
      else if negb (mem u (profile_ids (profiles db)))
      then (Some (foreign_key_violation "savings_user_id_fkey"), db)
      else (None, mk (auth_users db) (profiles db) (savings db ++ [r]))
  end.

(** INSERT INTO savings VALUES (..), (..): all the rows or none. *)
Fixpoint insert_rows (c : caller) (d : defaults) (n : nat)
  (vs : list saving_values) (db : t) : option error * t :=
  match vs with
  | [] => (None, db)
  | v :: vs' =>
      match insert_saving c (gen_random_uuid d n) (now d) v db with
      | (Some e, _) => (Some e, db)
      | (None, db') => insert_rows c d (S n) vs' db'
      end
  end.

Definition insert_savings (c : caller) (d : defaults)
  (vs : list saving_values) (db : t) : option error * t :=
  match insert_rows c d 0 vs db with
  | (Some e, _) => (Some e, db)
  | ok => ok
  end.

(** *** DELETE FROM savings WHERE ..

    Rows the caller may not delete are skipped without an error. The
    result is the number of rows deleted. *)
Definition delete_savings (c : caller) (pred : Saving.t -> bool) (db : t)
  : nat * t :=
  let hit r := deletable savings_policies c r && pred r in
  (List.length (filter hit (savings db)),
   mk (auth_users db) (profiles db)
      (filter (fun r => negb (hit r)) (savings db))).

(** *** UPDATE savings SET .. WHERE .. *)
Definition update_savings (c : caller) (pred : Saving.t -> bool)
  (set : Saving.t -> Saving.t) (db : t) : option error * t :=
  let hit r := updatable savings_policies c r && pred r in
  let news := map set (filter hit (savings db)) in
  let table := map (fun r => if hit r then set r else r) (savings db) in
  if negb (forallb (update_accepted savings_policies c) news)
  then (Some (insufficient_privilege "savings"), db)
  else if negb (forallb (fun r => amount_check (Saving.amount r)) news)
  then (Some (check_violation "savings_amount_check"), db)
  else if negb (distinct (saving_ids table))
  then (Some (unique_violation "savings_pkey"), db)
  else if negb (forallb (fun r => mem (Saving.user_id r)
                                    (profile_ids (profiles db))) news)
  then (Some (foreign_key_violation "savings_user_id_fkey"), db)
  else (None, mk (auth_users db) (profiles db) table).

(** *** INSERT INTO profiles *)

Record profile_values : Type := mk_profile_values {
  pv_id : option uuid;
  pv_name : option string;
  pv_created_at : option timestamptz
}.

Definition insert_profile (c : caller) (now : timestamptz)
  (v : profile_values) (db : t) : option error * t :=
  match pv_id v, pv_name v with
  | None, _ => (Some (not_null_violation "id"), db)
  | _, None => (Some (not_null_violation "name"), db)
  | Some i, Some n =>
      let r := Profile.mk i n (or_default (pv_created_at v) now) in
      if negb (insertable profiles_policies c r)
      then (Some (insufficient_privilege "profiles"), db)
      else if mem i (profile_ids (profiles db))
      then (Some (unique_violation "profiles_pkey"), db)
      else if negb (has_user db i)
      then (Some (foreign_key_violation "profiles_id_fkey"), db)
      else (None, mk (auth_users db) (profiles db ++ [r]) (savings db))
  end.

(** *** UPDATE profiles SET .. WHERE ..

    [savings.user_id] references [profiles.id] with no ON UPDATE action:
    a profile whose key is still referenced cannot change that key. *)
Definition update_profiles (c : caller) (pred : Profile.t -> bool)
  (set : Profile.t -> Profile.t) (db : t) : option error * t :=
  let hit r := updatable profiles_policies c r && pred r in
  let olds := filter hit (profiles db) in
  let news := map set olds in
  let table := map (fun r => if hit r then set r else r) (profiles db) in
  let orphaned r :=
    mem (Profile.id r) (map Saving.user_id (savings db))
    && negb (mem (Profile.id r) (profile_ids table)) in
  if negb (forallb (update_accepted profiles_policies c) news)
  then (Some (insufficient_privilege "profiles"), db)
  else if negb (distinct (profile_ids table))
  then (Some (unique_violation "profiles_pkey"), db)
  else if negb (forallb (fun r => has_user db (Profile.id r)) news)
  then (Some (foreign_key_violation "profiles_id_fkey"), db)
  else if existsb orphaned olds
  then (Some (foreign_key_violation "savings_user_id_fkey"), db)
  else (None, mk (auth_users db) table (savings db)).

(** *** DELETE FROM profiles WHERE ..

    Deleting a profile deletes its savings (ON DELETE CASCADE). No policy
    of the schema is FOR DELETE on profiles. *)
Definition cascade_profiles (gone : Profile.t -> bool) (db : t) : t :=
  let kept := filter (fun r => negb (gone r)) (profiles db) in
  let dead := profile_ids (filter gone (profiles db)) in
  mk (auth_users db) kept
     (filter (fun s => negb (mem (Saving.user_id s) dead)) (savings db)).

Definition delete_profiles (c : caller) (pred : Profile.t -> bool) (db : t)
  : nat * t :=
  let hit r := deletable profiles_policies c r && pred r in
  (List.length (filter hit (profiles db)), cascade_profiles hit db).

(** *** The auth provider's table

    An account is created by sign-up and may be removed; removing it
    removes its profile (ON DELETE CASCADE) and with it its savings. *)
Definition sign_up (u : uuid) (db : t) : t :=
  if has_user db u then db
  else mk (auth_users db ++ [u]) (profiles db) (savings db).

Definition remove_user (u : uuid) (db : t) : t :=
  let db' := cascade_profiles (fun p => String.eqb (Profile.id p) u) db in
  mk (filter (fun x => negb (String.eqb x u)) (auth_users db'))
     (profiles db') (savings db').

End Db.

(** ** The supabase-js client, as the component uses it *)

Module Supabase.

Inductive js_error : Type :=
| PostgrestError (e : Db.error)
| MultipleRows          (* maybeSingle() on more than one row *)
| FetchError (message : string).

(** [{ data, error }] *)
Record response (T : Type) : Type := mk_response {
  data : option T;
  error : option js_error
}.
Arguments mk_response {T}.
Arguments data {T}.
Arguments error {T}.

(** What happens to one request on its way: it is served by the store,
    it resolves to [{ data: null, error }] without reaching the store, or
    the awaited promise rejects. *)
Inductive transport : Type :=
| Up
| Down (message : string)
| Crash (message : string).

(** The requests of lines 26-40, 57-63 and 77 of SavingsTracker.tsx. *)
Inductive request : Type :=
| select_profiles_order
    (* .from('profiles').select('*').order('created_at') *)
| select_profile_eq_id (id : uuid)
    (* .from('profiles').select('*').eq('id', id).maybeSingle() *)
| select_savings_order_desc
    (* .from('savings').select('*')
       .order('created_at', { ascending: false }) *)
| insert_savings (rows : list Db.saving_values)
    (* .from('savings').insert(rows) *)
| delete_savings_eq_id (id : uuid).
    (* .from('savings').delete().eq('id', id) *)

(** [JSON.stringify] of a number: NaN and the infinities become [null],
    and negative zero becomes [0]. *)
Definition json_number (x : Number.t) : option Number.t :=
  match x with
  | S754_zero _ => Some Number.zero
  | S754_finite _ _ _ => Some x
  | _ => None
  end.

(** How the store answers each request for a caller. *)

Definition serve_select_profiles (c : Rls.caller) (db : Db.t)
  : response (list Profile.t) :=
  mk_response
    (Some (Db.order_by Profile.created_at true
             (Db.select_profiles c (fun _ => true) db)))
    None.

Definition serve_select_profile (id : uuid) (c : Rls.caller) (db : Db.t)
  : response Profile.t :=
  match Db.select_profiles c (fun r => String.eqb (Profile.id r) id) db with
  | [] => mk_response None None
  | [r] => mk_response (Some r) None
  | _ => mk_response None (Some MultipleRows)
  end.

Definition serve_select_savings (c : Rls.caller) (db : Db.t)
  : response (list Saving.t) :=
  mk_response
    (Some (Db.order_by Saving.created_at false
             (Db.select_savings c (fun _ => true) db)))
    None.

Definition lift_error (e : option Db.error) : response unit :=
  mk_response None (option_map PostgrestError e).

Definition serve_insert_savings (rows : list Db.saving_values)
  (c : Rls.caller) (d : Db.defaults) (db : Db.t) : response unit * Db.t :=
  let '(e, db') := Db.insert_savings c d rows db in (lift_error e, db').

(** The condition [.eq('id', id)] on savings. *)
Definition eq_id (id : uuid) (r : Saving.t) : bool :=
  String.eqb (Saving.id r) id.

(** A DELETE without [.select()] answers with no rows and no count. *)
Definition serve_delete_saving (id : uuid) (c : Rls.caller) (db : Db.t)
  : response unit * Db.t :=
  let '(_, db') := Db.delete_savings c (eq_id id) db in
  (mk_response None None, db').

End Supabase.

(** ** The component (components/SavingsTracker.tsx) *)

Module SavingsTracker.
Import Supabase.

(** The six [useState] cells. *)
Record State : Type := mk_state {
  currentUser : option Profile.t;
  profiles : list Profile.t;
  savings : list Saving.t;
  amount : string;
  description : string;
  loading : bool
}.

Definition initial : State := mk_state None [] [] "" "" true.

(** Everything a handler can touch: the component state, the store, the
    console, and the requests sent so far. *)
Record World : Type := mk_world {
  ui : State;
  db : Db.t;
  console : list (string * js_error);
  wire : list request
}.

(** What a handler cannot choose: the identity of the session, the fate
    of its n-th request, and the values the server generates for it. *)
Record Env : Type := mk_env {
  who : Rls.caller;
  net : nat -> transport;
  server : nat -> Db.defaults
}.

(** *** Handlers run in a state monad with exceptions *)

Definition M (A : Type) : Type := Env -> World -> (js_error + A) * World.

Definition ret {A : Type} (a : A) : M A := fun _ w => (inr a, w).

Definition bind {A B : Type} (m : M A) (k : A -> M B) : M B :=
  fun E w =>
    match m E w with
    | (inr a, w') => k a E w'
    | (inl e, w') => (inl e, w')
    end.

Definition throw {A : Type} (e : js_error) : M A := fun _ w => (inl e, w).

(** [try { body } catch (error) { handler }] *)
Definition try_catch {A : Type} (body : M A) (handler : js_error -> M A)
  : M A :=
  fun E w =>
    match body E w with
    | (inl e, w') => handler e E w'
    | ok => ok
    end.

(** [try { body } finally { last }] *)
Definition finally {A : Type} (body : M A) (last : M unit) : M A :=
  fun E w =>
    match body E w with
    | (r, w') =>
        match last E w' with
        | (inl e, w'') => (inl e, w'')
        | (inr _, w'') => (r, w'')
        end
    end.

Notation "x <- m ;; k" := (bind m (fun x => k))
  (at level 61, m at next level, right associativity).
Notation "m ;;; k" := (bind m (fun _ => k))
  (at level 61, right associativity).

Definition with_ui (f : State -> State) : M unit :=
  fun _ w => (inr tt, mk_world (f (ui w)) (db w) (console w) (wire w)).

Definition setCurrentUser (v : Profile.t) : M unit :=
  with_ui (fun s => mk_state (Some v) (profiles s) (savings s)
                      (amount s) (description s) (loading s)).
Definition setProfiles (v : list Profile.t) : M unit :=
  with_ui (fun s => mk_state (currentUser s) v (savings s)
                      (amount s) (description s) (loading s)).
Definition setSavings (v : list Saving.t) : M unit :=
  with_ui (fun s => mk_state (currentUser s) (profiles s) v
                      (amount s) (description s) (loading s)).
Definition setAmount (v : string) : M unit :=
  with_ui (fun s => mk_state (currentUser s) (profiles s) (savings s)
                      v (description s) (loading s)).
Definition setDescription (v : string) : M unit :=
  with_ui (fun s => mk_state (currentUser s) (profiles s) (savings s)
                      (amount s) v (loading s)).
Definition setLoading (v : bool) : M unit :=
  with_ui (fun s => mk_state (currentUser s) (profiles s) (savings s)
                      (amount s) (description s) v).

(** The state the handler closes over. *)
Definition render : M State := fun _ w => (inr (ui w), w).

Definition console_error (label : string) (e : js_error) : M unit :=
  fun _ w => (inr tt, mk_world (ui w) (db w) (console w ++ [(label, e)])
                        (wire w)).

(** [await supabase.auth.getUser()], destructured to its user. *)
Definition auth_getUser : M (option uuid) := fun E w => (inr (who E), w).

(** One awaited request. *)
Definition await {T : Type} (rq : request)
  (serve : Rls.caller -> Db.defaults -> Db.t -> response T * Db.t)
  : M (response T) :=
  fun E w =>
    let n := List.length (wire w) in
    let sent := wire w ++ [rq] in
    match net E n with
    | Up =>
        let '(r, db') := serve (who E) (server E n) (db w) in
        (inr r, mk_world (ui w) db' (console w) sent)
    | Down msg =>
        (inr (mk_response None (Some (FetchError msg))),
         mk_world (ui w) (db w) (console w) sent)
    | Crash msg =>
        (inl (FetchError msg), mk_world (ui w) (db w) (console w) sent)
    end.

Definition read_only {T : Type} (f : Rls.caller -> Db.t -> response T)
  : Rls.caller -> Db.defaults -> Db.t -> response T * Db.t :=
  fun c _ d => (f c d, d).

(** [if (x) f(x)] for an [x] that is an object, an array or null. *)
Definition when_some {T : Type} (x : option T) (f : T -> M unit) : M unit :=
  match x with
  | Some v => f v
  | None => ret tt
  end.

(** *** loadData (lines 21-50) *)
Definition loadData : M unit :=
  finally
    (try_catch
       (user <- auth_getUser ;;
        match user with
        | None => ret tt
        | Some user_id =>
            r1 <- await select_profiles_order
                    (read_only serve_select_profiles) ;;
            let profilesData := data r1 in
            r2 <- await (select_profile_eq_id user_id)
                    (read_only (serve_select_profile user_id)) ;;
            let currentProfileData := data r2 in
            r3 <- await select_savings_order_desc
                    (read_only serve_select_savings) ;;
            let savingsData := data r3 in
            when_some profilesData setProfiles ;;;
            when_some currentProfileData setCurrentUser ;;;
            when_some savingsData setSavings
        end)
       (fun error => console_error "Error loading data:" error))
    (setLoading false).

(** The row of lines 58-62. *)
Definition new_saving (user : Profile.t) (amount description : string)
  : Db.saving_values :=
  Db.mk_saving_values None
    (Some (Profile.id user))
    (json_number (Str.parseFloat amount))
    (Some (Str.trim description))
    None.

(** *** handleAddSaving (lines 52-73) *)
Definition handleAddSaving : M unit :=
  s <- render ;;
  match currentUser s with
  | None => ret tt
  | Some user =>
      if String.eqb (amount s) "" then ret tt
      else
        try_catch
          (r <- await
                  (insert_savings
                     [new_saving user (amount s) (description s)])
                  (serve_insert_savings
                     [new_saving user (amount s) (description s)]) ;;
           match error r with
           | Some e => throw e
           | None =>
               setAmount "" ;;;
               setDescription "" ;;;
               loadData
           end)
          (fun error => console_error "Error adding saving:" error)
  end.

(** *** handleDeleteSaving (lines 75-83) *)
Definition handleDeleteSaving (id : uuid) : M unit :=
  try_catch
    (r <- await (delete_savings_eq_id id)
            (fun c _ => serve_delete_saving id c) ;;
     match error r with
     | Some e => throw e
     | None => loadData
     end)
    (fun error => console_error "Error deleting saving:" error).

(** *** Aggregation (lines 94-102)

    [Number(x)] of a number is that number. *)
Definition Number_ (x : Number.t) : Number.t := x.

Definition calculateTotal (savings : list Saving.t) : Number.t :=
  fold_left (fun sum saving => Number.add sum (Number_ (Saving.amount saving)))
    savings Number.zero.

Definition calculateUserTotal (savings : list Saving.t) (userId : uuid)
  : Number.t :=
  fold_left (fun sum saving => Number.add sum (Number_ (Saving.amount saving)))
    (filter (fun s => String.eqb (Saving.user_id s) userId) savings)
    Number.zero.

(** [getProfileById] (lines 90-92) *)
Definition getProfileById (profiles : list Profile.t) (userId : uuid)
  : option Profile.t :=
  find (fun p => String.eqb (Profile.id p) userId) profiles.

(** *** The history list (lines 203-246)

    [isOwner] decides whether a row gets the "Anda" badge and the delete
    button: [saving.user_id === currentUser?.id]. *)
Definition isOwner (s : State) (saving : Saving.t) : bool :=
  match currentUser s with
  | Some user => String.eqb (Saving.user_id saving) (Profile.id user)
  | None => false
  end.

(** The rows on which the delete button is rendered. *)
Definition offered (s : State) : list Saving.t :=
  filter (isOwner s) (savings s).

(** *** What the user can do to a mounted component *)
Inductive event : Type :=
| Mount                                   (* useEffect: loadData() *)
| TypeAmount (value : string)             (* onChange of #amount *)
| TypeDescription (value : string)        (* onChange of #description *)
| Submit                                  (* onSubmit of the form *)
| ClickDelete (id : uuid).                (* onClick of a row's button *)

Definition handle (ev : event) : M unit :=
  match ev with
  | Mount => loadData
  | TypeAmount v => setAmount v
  | TypeDescription v => setDescription v
  | Submit => handleAddSaving
  | ClickDelete id => handleDeleteSaving id
  end.

(** A session: the events of one mounted component, each with the
    environment it meets. *)
Fixpoint run (evs : list (Env * event)) (w : World) : World :=
  match evs with
  | [] => w
  | (E, ev) :: rest => run rest (snd (handle ev E w))
  end.

Definition mounted (db : Db.t) : World := mk_world initial db [] [].

End SavingsTracker.

(** * Vocabulary of the properties *)

(** The row a caller [C] aims at with [id] and owns. *)
Definition owned_target (C id : uuid) (r : Saving.t) : Prop :=
  Saving.id r = id /\ Saving.user_id r = C.

(** The three reads of one load cycle of the identity [u]. *)
Definition reads (u : uuid) : list Supabase.request :=
  [ Supabase.select_profiles_order;
    Supabase.select_profile_eq_id u;
    Supabase.select_savings_order_desc ].

(** The promise of a request does not reject. *)
Definition settles (t : Supabase.transport) : bool :=
  match t with
  | Supabase.Crash _ => false
  | _ => true
  end.

(** What the client holds after a request that settled. *)
Definition answer {T : Type} (t : Supabase.transport)
  (served : Supabase.response T) : Supabase.response T :=
  match t with
  | Supabase.Up => served
  | Supabase.Down msg | Supabase.Crash msg =>
      Supabase.mk_response None (Some (Supabase.FetchError msg))
  end.

(** The console entries under one label. *)
Definition logged (label : string) (w : SavingsTracker.World)
  : list (string * Supabase.js_error) :=
  filter (fun entry => String.eqb (fst entry) label) (SavingsTracker.console w).

(** A session of the identity [u]: every event meets an environment whose
    requests are made as [u]. *)
Definition session_of (c : Rls.caller)
  (evs : list (SavingsTracker.Env * SavingsTracker.event)) : Prop :=
  Forall (fun p => SavingsTracker.who (fst p) = c) evs.

(** The rows the client has asked the store to insert so far. *)
Definition submitted (w : SavingsTracker.World) : list Db.saving_values :=
  flat_map (fun rq => match rq with
                      | Supabase.insert_savings rows => rows
                      | _ => []
                      end)
    (SavingsTracker.wire w).

(** What a session of [u] maintains: the cached profile, when there is
    one, is [u]'s, and every submitted row is tagged with [u]. *)
Definition tagged (u : uuid) (w : SavingsTracker.World) : Prop :=
  (forall p, SavingsTracker.currentUser (SavingsTracker.ui w) = Some p ->
             Profile.id p = u)
  /\ Forall (fun v => Db.v_user_id v = Some u) (submitted w).

(** * Sample data: two accounts with their profiles *)

Module Sample.
Import SavingsTracker.

Definition U1 : uuid := "u1".
Definition U2 : uuid := "u2".
Definition alice : Profile.t := Profile.mk U1 "Alice" 1.
Definition bob : Profile.t := Profile.mk U2 "Bob" 2.

Definition two_users : Db.t := Db.mk [U1; U2] [alice; bob] [].

(** The saving [id] of [user], created at [at_]. *)
Definition saving (id user : uuid) (amount : string) (at_ : timestamptz)
  : Saving.t :=
  Saving.mk id user (Str.parseFloat amount) "" at_.

(** The server names the rows of its n-th statement s<n>-0, s<n>-1, .. and
    its clock shows 10 + n. *)
Definition numeral (n : nat) : string :=
  NilEmpty.string_of_uint (Nat.to_uint n).

Definition server (n : nat) : Db.defaults :=
  Db.mk_defaults
    (fun k => String.append "s" (String.append (numeral n)
                (String.append "-" (numeral k))))
    (10 + Z.of_nat n).

(** An environment in which every request is served. *)
Definition online (c : Rls.caller) : Env :=
  mk_env c (fun _ => Supabase.Up) server.

End Sample.

(** * Store states

    A store changes by the statements of callers and by the auth provider
    creating and removing accounts. *)

Inductive step : Db.t -> Db.t -> Prop :=
| step_sign_up (u : uuid) (db : Db.t) :
    step db (Db.sign_up u db)
| step_remove_user (u : uuid) (db : Db.t) :
    step db (Db.remove_user u db)
| step_insert_profile (c : Rls.caller) (now : timestamptz)
    (v : Db.profile_values) (db : Db.t) :
    step db (snd (Db.insert_profile c now v db))
| step_update_profiles (c : Rls.caller) (pred : Profile.t -> bool)
    (set : Profile.t -> Profile.t) (db : Db.t) :
    step db (snd (Db.update_profiles c pred set db))
| step_delete_profiles (c : Rls.caller) (pred : Profile.t -> bool)
    (db : Db.t) :
    step db (snd (Db.delete_profiles c pred db))
| step_insert_savings (c : Rls.caller) (d : Db.defaults)
    (vs : list Db.saving_values) (db : Db.t) :
    step db (snd (Db.insert_savings c d vs db))
| step_update_savings (c : Rls.caller) (pred : Saving.t -> bool)
    (set : Saving.t -> Saving.t) (db : Db.t) :
    step db (snd (Db.update_savings c pred set db))
| step_delete_savings (c : Rls.caller) (pred : Saving.t -> bool)
    (db : Db.t) :
    step db (snd (Db.delete_savings c pred db)).

Inductive reachable : Db.t -> Prop :=
| reachable_empty : reachable Db.empty
| reachable_step (db db' : Db.t) :
    reachable db -> step db db' -> reachable db'.

(** [amount > 0] *)
Definition positive (a : Number.t) : Prop :=
  Number.gtb a Number.zero = true.

(** [amount <= 0] *)
Definition non_positive (a : Number.t) : Prop :=
  SFleb a Number.zero = true.

(** Every saving has a positive amount and an existing owner. *)
Definition savings_sound (db : Db.t) : Prop :=
  forall s, In s (Db.savings db) ->
    positive (Saving.amount s)
    /\ exists p, In p (Db.profiles db) /\ Profile.id p = Saving.user_id s.


(** * Totals *)

(** The distinct [user_id] values present in a list of savings. *)
Definition user_ids (savings : list Saving.t) : list uuid :=
  nodup string_dec (map Saving.user_id savings).

(** The per-user totals of the identifiers [ids], added up with the
    numbers' own addition in the order of [ids]. *)
Definition sum_of_user_totals (savings : list Saving.t) (ids : list uuid)
  : Number.t :=
  fold_left
    (fun sum userId =>
       Number.add sum (SavingsTracker.calculateUserTotal savings userId))
    ids Number.zero.

(** An amount in whole rupiah. *)
Definition rupiah (s : Saving.t) : Z := Number.to_Z (Saving.amount s).

Definition whole (s : Saving.t) : Prop :=
  0 <= rupiah s /\ Number.of_Z (rupiah s) = Saving.amount s.

Definition total_rupiah (savings : list Saving.t) : Z :=
  fold_right (fun s acc => rupiah s + acc) 0 savings.

(** The rows of one contributor. *)
Definition by_user (userId : uuid) (s : Saving.t) : bool :=
  String.eqb (Saving.user_id s) userId.

Definition per_user_rupiah (savings : list Saving.t) (ids : list uuid) : Z :=
  fold_right (fun u acc => total_rupiah (filter (by_user u) savings) + acc)
    0 ids.

(** * Keys and references

    The primary keys are distinct, every profile belongs to an account,
    and no account is listed twice. *)
Definition keys_sound (db : Db.t) : Prop :=
  NoDup (Db.saving_ids (Db.savings db))
  /\ NoDup (Db.profile_ids (Db.profiles db))
  /\ NoDup (Db.auth_users db)
  /\ (forall p, In p (Db.profiles db) -> In (Profile.id p) (Db.auth_users db)).


(** The most requests one event can cause. *)
Definition budget (ev : SavingsTracker.event) : nat :=
  match ev with
  | SavingsTracker.Mount => 3
  | SavingsTracker.TypeAmount _ | SavingsTracker.TypeDescription _ => 0
  | SavingsTracker.Submit | SavingsTracker.ClickDelete _ => 4
  end.

(** * Properties *)

(** ** What the policies decide, caller by caller *)

Section PolicyFacts.
Import Rls Schema.

Lemma savings_visible (u : uuid) (r : Saving.t) :
  visible savings_policies (Some u) r = true.
Proof. reflexivity. Qed.

Lemma profiles_visible (u : uuid) (r : Profile.t) :
  visible profiles_policies (Some u) r = true.
Proof. reflexivity. Qed.

Lemma savings_deletable (u : uuid) (r : Saving.t) :
  deletable savings_policies (Some u) r = String.eqb u (Saving.user_id r).
Proof.
  unfold deletable, visible, passes_using; cbn.
  now rewrite orb_false_r.
Qed.


Lemma savings_insertable (u : uuid) (r : Saving.t) :
  insertable savings_policies (Some u) r = String.eqb u (Saving.user_id r).
Proof.
  unfold insertable, passes_check; cbn.
  now rewrite orb_false_r.
Qed.


Lemma profiles_insertable (u : uuid) (r : Profile.t) :
  insertable profiles_policies (Some u) r = String.eqb u (Profile.id r).
Proof.
  unfold insertable, passes_check; cbn.
  now rewrite orb_false_r.
Qed.

Lemma profiles_updatable (u : uuid) (r : Profile.t) :
  updatable profiles_policies (Some u) r = String.eqb u (Profile.id r).
Proof.
  unfold updatable, visible, passes_using; cbn.
  now rewrite orb_false_r.
Qed.

Lemma profiles_update_accepted (u : uuid) (r : Profile.t) :
  update_accepted profiles_policies (Some u) r
  = String.eqb u (Profile.id r).
Proof.
  unfold update_accepted, passes_check; cbn.
  now rewrite orb_false_r.
Qed.

Lemma profiles_deletable (c : caller) (r : Profile.t) :
  deletable profiles_policies c r = false.
Proof. destruct c; reflexivity. Qed.



End PolicyFacts.

(** ** Lists *)

Section ListFacts.
Context {A : Type}.

Lemma filter_all (f : A -> bool) (l : list A) :
  (forall x, In x l -> f x = true) -> filter f l = l.
Proof.
  induction l as [|a l IH]; intros H; cbn; [reflexivity|].
  rewrite (H a (or_introl eq_refl)), IH; [reflexivity|].
  intros x Hx; apply H; now right.
Qed.

Lemma filter_none (f : A -> bool) (l : list A) :
  (forall x, In x l -> f x = false) -> filter f l = [].
Proof.
  induction l as [|a l IH]; intros H; cbn; [reflexivity|].
  rewrite (H a (or_introl eq_refl)); apply IH.
  intros x Hx; apply H; now right.
Qed.

Lemma filter_length_pos (f : A -> bool) (l : list A) :
  (0 < List.length (filter f l))%nat <-> exists x, In x l /\ f x = true.
Proof.
  split.
  - destruct (filter f l) as [|x r] eqn:E; cbn; [lia|]; intros _.
    exists x. apply filter_In. rewrite E; now left.
  - intros (x & Hx & Hf).
    assert (In x (filter f l)) as Hin by (apply filter_In; auto).
    destruct (filter f l); [contradiction|cbn; lia].
Qed.

End ListFacts.

Lemma mem_In (u : uuid) (l : list uuid) : Db.mem u l = true <-> In u l.
Proof.
  unfold Db.mem; rewrite existsb_exists; split.
  - intros (x & Hx & E). apply String.eqb_eq in E; now subst.
  - intros H; exists u; split; [assumption|apply String.eqb_refl].
Qed.

(** ** Deleting a saving *)

Section DeleteSaving.
Import Supabase.

Variables (C id : uuid).

Lemma hit_owned (r : Saving.t) :
  Rls.deletable Schema.savings_policies (Some C) r && eq_id id r = true
  <-> owned_target C id r.
Proof.
  rewrite savings_deletable, andb_true_iff. unfold eq_id, owned_target.
  rewrite !String.eqb_eq. intuition congruence.
Qed.

Lemma delete_savings_rows (db : Db.t) (r : Saving.t) :
  In r (Db.savings (snd (Db.delete_savings (Some C) (eq_id id) db)))
  <-> In r (Db.savings db) /\ ~ owned_target C id r.
Proof.
  cbn. rewrite filter_In, negb_true_iff, <- hit_owned.
  now rewrite not_true_iff_false.
Qed.

Lemma delete_savings_count (db : Db.t) :
  (0 < fst (Db.delete_savings (Some C) (eq_id id) db))%nat
  <-> exists r, In r (Db.savings db) /\ owned_target C id r.
Proof.
  cbn. rewrite filter_length_pos.
  split; intros (r & Hr & H); exists r; split; auto; now apply hit_owned.
Qed.

Lemma delete_savings_nothing (db : Db.t) :
  ~ (exists r, In r (Db.savings db) /\ owned_target C id r) ->
  Db.delete_savings (Some C) (eq_id id) db = (0%nat, db).
Proof.
  intros H.
  assert (forall r, In r (Db.savings db) ->
            Rls.deletable Schema.savings_policies (Some C) r && eq_id id r
            = false) as Hno.
  { intros r Hr. apply not_true_iff_false. rewrite hit_owned.
    intros Ho; apply H; now exists r. }
  unfold Db.delete_savings. rewrite filter_none by exact Hno.
  rewrite filter_all; [now destruct db|].
  intros r Hr. now rewrite (Hno r Hr).
Qed.

Lemma delete_savings_again (db : Db.t) :
  Db.delete_savings (Some C) (eq_id id)
    (snd (Db.delete_savings (Some C) (eq_id id) db))
  = (0%nat, snd (Db.delete_savings (Some C) (eq_id id) db)).
Proof.
  apply delete_savings_nothing. intros (r & Hr & Ho).
  apply delete_savings_rows in Hr. tauto.
Qed.

End DeleteSaving.

(** ** Handlers, step by step *)

Section HandlerFacts.
Import Supabase SavingsTracker.

Lemma loadData_anon (E : Env) (w : World) :
  who E = None ->
  loadData E w
  = (inr tt,
     mk_world (mk_state (currentUser (ui w)) (profiles (ui w))
                 (savings (ui w)) (amount (ui w)) (description (ui w)) false)
       (db w) (console w) (wire w)).
Proof.
  intros H. unfold loadData, finally, try_catch, bind, auth_getUser.
  now rewrite H.
Qed.

Lemma length_snoc {A : Type} (l : list A) (a : A) :
  List.length (l ++ [a]) = S (List.length l).
Proof. rewrite length_app; cbn; lia. Qed.

(** A load cycle none of whose requests rejects. *)
Lemma loadData_settled (E : Env) (w : World) (u : uuid) :
  who E = Some u ->
  let n := List.length (wire w) in
  settles (net E n) = true ->
  settles (net E (S n)) = true ->
  settles (net E (S (S n))) = true ->
  let a1 := answer (net E n) (serve_select_profiles (Some u) (db w)) in
  let a2 := answer (net E (S n)) (serve_select_profile u (Some u) (db w)) in
  let a3 := answer (net E (S (S n))) (serve_select_savings (Some u) (db w)) in
  loadData E w
  = (inr tt,
     mk_world
       (mk_state
          (match data a2 with Some p => Some p | None => currentUser (ui w) end)
          (Db.or_default (data a1) (profiles (ui w)))
          (Db.or_default (data a3) (savings (ui w)))
          (amount (ui w)) (description (ui w)) false)
       (db w) (console w) (wire w ++ reads u)).
Proof.
  destruct E as [c net server]; cbn [who SavingsTracker.net].
  intros -> H1 H2 H3. set (n := List.length (wire w)) in *.
  unfold loadData, finally, try_catch, bind, auth_getUser, await, read_only.
  cbn. fold n.
  destruct (net n); try discriminate H1; cbn; rewrite ?length_snoc; fold n;
    destruct (net (S n)); try discriminate H2; cbn;
    rewrite ?length_snoc; fold n;
    destruct (net (S (S n))); try discriminate H3; cbn;
    rewrite <- !app_assoc; cbn;
    repeat match goal with
      | |- context [data ?r] => destruct (data r); cbn
      end; reflexivity.
Qed.

(** A load cycle whose [k]-th request is the first to reject: nothing is
    set but [loading], and the rejection is logged. *)
Lemma loadData_crashed (E : Env) (w : World) (u : uuid) (k : nat)
  (msg : string) :
  who E = Some u ->
  let n := List.length (wire w) in
  (k < 3)%nat ->
  (forall j, (j < k)%nat -> settles (net E (n + j)) = true) ->
  net E (n + k) = Crash msg ->
  loadData E w
  = (inr tt,
     mk_world
       (mk_state (currentUser (ui w)) (profiles (ui w)) (savings (ui w))
          (amount (ui w)) (description (ui w)) false)
       (db w)
       (console w ++ [("Error loading data:", FetchError msg)])
       (wire w ++ firstn (S k) (reads u))).
Proof.
  destruct E as [c net server]; cbn [who SavingsTracker.net].
  intros -> Hk Hbefore Hcrash. set (n := List.length (wire w)) in *.
  unfold loadData, finally, try_catch, bind, auth_getUser, await, read_only.
  cbn. fold n.
  destruct k as [|[|[|k]]]; [| | |lia].
  - rewrite Nat.add_0_r in Hcrash. rewrite Hcrash. reflexivity.
  - pose proof (Hbefore 0%nat ltac:(lia)) as H0.
    rewrite Nat.add_0_r in H0. rewrite Nat.add_1_r in Hcrash.
    destruct (net n); try discriminate H0; cbn; rewrite ?length_snoc;
      fold n; rewrite Hcrash; cbn; rewrite <- !app_assoc; reflexivity.
  - pose proof (Hbefore 0%nat ltac:(lia)) as H0.
    pose proof (Hbefore 1%nat ltac:(lia)) as H1.
    rewrite Nat.add_0_r in H0. rewrite Nat.add_1_r in H1.
    replace (n + 2)%nat with (S (S n)) in Hcrash by lia.
    destruct (net n); try discriminate H0; cbn; rewrite ?length_snoc;
      fold n; destruct (net (S n)); try discriminate H1; cbn;
      rewrite ?length_snoc; fold n; rewrite Hcrash; cbn;
      rewrite <- !app_assoc; reflexivity.
Qed.

(** Every load cycle is of one of the three kinds above. *)
Lemma loadData_cases (E : Env) (w : World) (u : uuid) :
  who E = Some u ->
  let n := List.length (wire w) in
  (settles (net E n) = true /\ settles (net E (S n)) = true
   /\ settles (net E (S (S n))) = true)
  \/ (exists k msg, (k < 3)%nat
        /\ (forall j, (j < k)%nat -> settles (net E (n + j)) = true)
        /\ net E (n + k) = Crash msg).
Proof.
  intros _ n.
  destruct (net E n) eqn:T1;
    try (right; exists 0%nat; eexists; repeat split;
         [lia | intros j Hj; lia | rewrite Nat.add_0_r; eassumption]).
  all: destruct (net E (S n)) eqn:T2;
    try (right; exists 1%nat; eexists; repeat split;
         [lia
         | intros j Hj; assert (j = 0)%nat as -> by lia;
           rewrite Nat.add_0_r, T1; reflexivity
         | rewrite Nat.add_1_r; eassumption]).
  all: destruct (net E (S (S n))) eqn:T3;
    try (left; repeat split; reflexivity).
  all: right; exists 2%nat; eexists; repeat split;
    [lia
    | intros j Hj; destruct j as [|[|j]];
      [rewrite Nat.add_0_r, T1 | rewrite Nat.add_1_r, T2 | lia]; reflexivity
    | replace (n + 2)%nat with (S (S n)) by lia; eassumption].
Qed.

(** What no load cycle touches, and the little it can add. *)
Lemma loadData_frame (E : Env) (w : World) :
  let w' := snd (loadData E w) in
  fst (loadData E w) = inr tt
  /\ db w' = db w
  /\ amount (ui w') = amount (ui w)
  /\ description (ui w') = description (ui w)
  /\ loading (ui w') = false
  /\ (console w' = console w
      \/ exists e, console w' = console w ++ [("Error loading data:", e)])
  /\ (exists k,
        wire w' = wire w ++ firstn k (reads (Db.or_default (who E) ""))).
Proof.
  destruct (who E) as [u|] eqn:Hu.
  - destruct (loadData_cases E w u Hu)
    as [(H1 & H2 & H3)|(k & msg & Hk & Hb & Hc)].
    + cbn zeta. rewrite (loadData_settled E w u Hu H1 H2 H3); cbn.
      repeat split; auto. now exists 3%nat.
    + cbn zeta. rewrite (loadData_crashed E w u k msg Hu Hk Hb Hc); cbn.
      repeat split; eauto. now exists (S k).
  - cbn zeta. rewrite (loadData_anon E w Hu); cbn.
    repeat split; auto. exists 0%nat. now rewrite app_nil_r.
Qed.

End HandlerFacts.

Section WriteHandlerFacts.
Import Supabase SavingsTracker.

Lemma insert_savings_one (c : Rls.caller) (d : Db.defaults)
  (v : Db.saving_values) (db : Db.t) :
  Db.insert_savings c d [v] db
  = Db.insert_saving c (Db.gen_random_uuid d 0) (Db.now d) v db.
Proof.
  unfold Db.insert_savings; cbn.
  destruct (Db.insert_saving _ _ _ v db) as [[e|] db'] eqn:H; [|reflexivity].
  f_equal.
  unfold Db.insert_saving in H.
  repeat match type of H with
    | (match ?x with _ => _ end) = _ => destruct x
    | (if ?x then _ else _) = _ => destruct x
    end; congruence.
Qed.

Lemma insert_saving_atomic (c : Rls.caller) (fresh : uuid)
  (now : timestamptz) (v : Db.saving_values) (db : Db.t) (e : Db.error) :
  fst (Db.insert_saving c fresh now v db) = Some e ->
  snd (Db.insert_saving c fresh now v db) = db.
Proof.
  unfold Db.insert_saving.
  repeat match goal with
    | |- context [match ?x with _ => _ end] => destruct x
    end; cbn; congruence.
Qed.

(** The guard of line 54. *)
Lemma handleAddSaving_guarded (E : Env) (w : World) :
  currentUser (ui w) = None \/ amount (ui w) = "" ->
  handleAddSaving E w = (inr tt, w).
Proof.
  unfold handleAddSaving, bind, render; cbn.
  intros [H|H]; rewrite H; [reflexivity|].
  now destruct (currentUser (ui w)).
Qed.

(** Past the guard one insert is sent; what follows depends on its fate. *)
Lemma handleAddSaving_sent (E : Env) (w : World) (user : Profile.t) :
  currentUser (ui w) = Some user ->
  amount (ui w) <> "" ->
  let n := List.length (wire w) in
  let row := new_saving user (amount (ui w)) (description (ui w)) in
  let sent := wire w ++ [insert_savings [row]] in
  let failed e :=
    (inr tt, mk_world (ui w) (db w)
               (console w ++ [("Error adding saving:", e)]) sent) in
  handleAddSaving E w
  = match net E n with
    | Up =>
        match Db.insert_saving (who E) (Db.gen_random_uuid (server E n) 0)
                (Db.now (server E n)) row (db w) with
        | (Some e, _) => failed (PostgrestError e)
        | (None, db') =>
            loadData E
              (mk_world
                 (mk_state (currentUser (ui w)) (profiles (ui w))
                    (savings (ui w)) "" "" (loading (ui w)))
                 db' (console w) sent)
        end
    | Down msg | Crash msg => failed (FetchError msg)
    end.
Proof.
  intros Hu Ha. cbn zeta.
  unfold handleAddSaving, bind, render.
  cbn -[Db.insert_saving Db.insert_savings loadData]. rewrite Hu.
  apply String.eqb_neq in Ha; rewrite Ha.
  unfold try_catch, bind, await, serve_insert_savings.
  destruct (net E _); [|reflexivity..].
  rewrite insert_savings_one.
  destruct (Db.insert_saving _ _ _ _ _) as [[e|] db'] eqn:Hins;
    cbn -[Db.insert_saving loadData].
  - pose proof (insert_saving_atomic (who E)
        (Db.gen_random_uuid (server E (List.length (wire w))) 0)
        (Db.now (server E (List.length (wire w))))
        (new_saving user (amount (ui w)) (description (ui w))) (db w) e)
      as Hat.
    rewrite Hins in Hat. cbn in Hat. now rewrite (Hat eq_refl).
  - pose proof (loadData_frame E
      (mk_world (mk_state (currentUser (ui w)) (profiles (ui w))
                   (savings (ui w)) "" "" (loading (ui w)))
         db' (console w)
         (wire w ++ [insert_savings
            [new_saving user (amount (ui w)) (description (ui w))]])))
      as (Hret & _).
    unfold setAmount, setDescription, with_ui; cbn -[loadData].
    rewrite Hu in *.
    destruct (loadData E _) as [[e|[]] w'']; cbn in *; congruence.
Qed.

Lemma handleDeleteSaving_sent (id : uuid) (E : Env) (w : World) :
  let n := List.length (wire w) in
  let sent := wire w ++ [delete_savings_eq_id id] in
  handleDeleteSaving id E w
  = match net E n with
    | Up =>
        loadData E
          (mk_world (ui w)
             (snd (Db.delete_savings (who E) (eq_id id) (db w)))
             (console w) sent)
    | Down msg | Crash msg =>
        (inr tt, mk_world (ui w) (db w)
                   (console w ++ [("Error deleting saving:", FetchError msg)])
                   sent)
    end.
Proof.
  cbn zeta. unfold handleDeleteSaving, try_catch, bind, await.
  destruct (net E _); [|reflexivity..].
  unfold serve_delete_saving.
  destruct (Db.delete_savings _ _ _) as [k db'] eqn:Hdel; cbn.
  pose proof (loadData_frame E
    (mk_world (ui w) db' (console w) (wire w ++ [delete_savings_eq_id id])))
    as (Hret & _).
  destruct (loadData E _) as [[e|[]] w'']; cbn in *; congruence.
Qed.

Lemma logged_snoc_other (label l : string) (e : js_error) (w w' : World) :
  console w' = console w ++ [(l, e)] -> l <> label ->
  logged label w' = logged label w.
Proof.
  intros H Hl. unfold logged. rewrite H, filter_app; cbn.
  apply String.eqb_neq in Hl. rewrite Hl. apply app_nil_r.
Qed.

Lemma loadData_logged (label : string) (E : Env) (w : World) :
  label <> "Error loading data:" ->
  logged label (snd (loadData E w)) = logged label w.
Proof.
  intros Hl.
  destruct (loadData_frame E w) as (_ & _ & _ & _ & _ & [H|[e H]] & _).
  - unfold logged. now rewrite H.
  - eapply logged_snoc_other; eauto.
Qed.

End WriteHandlerFacts.

(** ** C1: deleting a saving *)

Section C1.
Import Supabase SavingsTracker.

(** C1. For an authenticated caller [C] and any [id], the delete removes
    exactly the rows with that id whose [user_id] is [C]: a row is deleted
    if and only if such a row exists. Otherwise (the row belongs to somebody
    else, or there is no row with that id, as after an earlier delete) zero
    rows are affected and the store is as before. In all cases the answer
    is the same [{ data: null, error: null }], and the handler logs no
    delete error when the request is served. *)
Theorem deleteSaving_removes_iff_owned (C id : uuid)
  (net : nat -> transport) (server : nat -> Db.defaults) (w : World) :
  let E := mk_env (Some C) net server in
  let result := Db.delete_savings (Some C) (eq_id id) (db w) in
  let w' := snd (handleDeleteSaving id E w) in
  (forall r, In r (Db.savings (snd result))
             <-> In r (Db.savings (db w)) /\ ~ owned_target C id r)
  /\ Db.profiles (snd result) = Db.profiles (db w)
  /\ Db.auth_users (snd result) = Db.auth_users (db w)
  /\ ((0 < fst result)%nat
      <-> exists r, In r (Db.savings (db w)) /\ owned_target C id r)
  /\ ((exists r, In r (Db.savings (db w)) /\ owned_target C id r)
      \/ result = (0%nat, db w))
  /\ Db.delete_savings (Some C) (eq_id id) (snd result)
     = (0%nat, snd result)
  /\ fst (serve_delete_saving id (Some C) (db w)) = mk_response None None
  /\ match net (List.length (wire w)) with
     | Up => db w' = snd result
             /\ logged "Error deleting saving:" w'
                = logged "Error deleting saving:" w
     | _ => db w' = db w
     end.
Proof.
  cbn zeta.
  split; [intros r; apply delete_savings_rows|].
  split; [reflexivity|]. split; [reflexivity|].
  split; [apply delete_savings_count|].
  split.
  { destruct (fst (Db.delete_savings (Some C) (eq_id id) (db w))) eqn:Hn.
    - right. apply delete_savings_nothing. intros Hex.
      apply delete_savings_count in Hex. lia.
    - left. apply delete_savings_count. lia. }
  split; [apply delete_savings_again|].
  split; [reflexivity|].
  rewrite handleDeleteSaving_sent. cbn [SavingsTracker.net who].
  destruct (net (List.length (wire w))); cbn; try reflexivity.
  match goal with
  | |- context [loadData ?E ?w0] =>
      destruct (loadData_frame E w0) as (_ & Hdb & _)
  end.
  split; [exact Hdb|].
  now rewrite loadData_logged.
Qed.

End C1.

(** ** C2: inserting on behalf of somebody else *)

Section C2.
Import Supabase SavingsTracker.

Lemma insert_saving_foreign (A B fresh : uuid) (now : timestamptz)
  (v : Db.saving_values) (db : Db.t) :
  A <> B -> Db.v_user_id v = Some B ->
  exists e, Db.insert_saving (Some A) fresh now v db = (Some e, db).
Proof.
  intros Hne Hv. unfold Db.insert_saving. rewrite Hv.
  destruct (Db.v_amount v) as [a|]; [|eauto].
  rewrite savings_insertable; cbn [Saving.user_id].
  apply String.eqb_neq in Hne. rewrite Hne; cbn. eauto.
Qed.

Lemma insert_rows_foreign (A B : uuid) (d : Db.defaults)
  (vs : list Db.saving_values) :
  A <> B ->
  (exists v, In v vs /\ Db.v_user_id v = Some B) ->
  forall n db, exists e, fst (Db.insert_rows (Some A) d n vs db) = Some e.
Proof.
  intros Hne. induction vs as [|v0 vs IH]; intros (v & Hin & Hv) n db.
  - destruct Hin.
  - cbn [Db.insert_rows].
    destruct (Db.insert_saving (Some A) _ _ v0 db) as [[e|] db'] eqn:H0.
    + exists e; reflexivity.
    + destruct Hin as [->|Hin].
      * destruct (insert_saving_foreign A B (Db.gen_random_uuid d n)
                    (Db.now d) v db Hne Hv) as (e & He). congruence.
      * apply IH. eauto.
Qed.

Lemma serve_select_profile_id (u : uuid) (c : Rls.caller) (db : Db.t)
  (p : Profile.t) :
  data (serve_select_profile u c db) = Some p ->
  Profile.id p = u /\ In p (Db.profiles db).
Proof.
  unfold serve_select_profile.
  destruct (Db.select_profiles _ _ _) as [|r [|r' l]] eqn:Hsel; cbn;
    try discriminate.
  intros [= ->].
  assert (In p (Db.select_profiles c
                  (fun r => String.eqb (Profile.id r) u) db)) as Hin
    by (rewrite Hsel; now left).
  apply filter_In in Hin as (Hin & Hp).
  apply andb_true_iff in Hp as (_ & Hp). apply String.eqb_eq in Hp. auto.
Qed.

(** A load cycle keeps the cached profile or replaces it by the caller's
    own, and sends nothing but reads. *)
Lemma loadData_identity (E : Env) (w : World) (u : uuid) :
  who E = Some u ->
  let w' := snd (loadData E w) in
  (currentUser (ui w') = currentUser (ui w)
   \/ exists p, currentUser (ui w') = Some p /\ Profile.id p = u)
  /\ submitted w' = submitted w.
Proof.
  intros Hu.
  assert (forall k, submitted (mk_world (ui w) (db w) (console w)
                                 (wire w ++ firstn k (reads u)))
                    = submitted w) as Hsub.
  { intros k. unfold submitted; cbn [wire]. rewrite flat_map_app.
    replace (flat_map _ (firstn k (reads u))) with (@nil Db.saving_values);
      [apply app_nil_r|].
    destruct k as [|[|[|[|k]]]]; reflexivity. }
  destruct (loadData_cases E w u Hu)
    as [(H1 & H2 & H3)|(k & msg & Hk & Hb & Hc)].
  - cbn zeta. rewrite (loadData_settled E w u Hu H1 H2 H3); cbn.
    split.
    + destruct (data (answer _ (serve_select_profile u (Some u) (db w))))
        as [p|] eqn:Hd; [|now left].
      right. exists p; split; [reflexivity|].
      destruct (net E (S (List.length (wire w)))); cbn in Hd;
        try discriminate.
      now apply serve_select_profile_id in Hd.
    + apply (Hsub 3%nat).
  - cbn zeta. rewrite (loadData_crashed E w u k msg Hu Hk Hb Hc); cbn.
    split; [now left|]. apply (Hsub (S k)).
Qed.

Lemma loadData_tagged (E : Env) (w : World) (u : uuid) :
  who E = Some u -> tagged u w -> tagged u (snd (loadData E w)).
Proof.
  intros Hu (Hc & Hs).
  destruct (loadData_identity E w u Hu) as ([Hsame|(p & Hp & Hid)] & Hsub);
    split; try (rewrite Hsub; exact Hs).
  - intros p. rewrite Hsame. apply Hc.
  - intros q. rewrite Hp. now intros [= <-].
Qed.

Lemma handle_tagged (ev : event) (E : Env) (w : World) (u : uuid) :
  who E = Some u -> tagged u w -> tagged u (snd (handle ev E w)).
Proof.
  intros Hu Ht. destruct ev as [| v | v | | id]; cbn [handle].
  - now apply loadData_tagged.
  - exact Ht.
  - exact Ht.
  - destruct (currentUser (ui w)) as [user|] eqn:Hcu;
      [destruct (String.eqb (amount (ui w)) "") eqn:Ha|].
    + apply String.eqb_eq in Ha. now rewrite handleAddSaving_guarded by auto.
    + apply String.eqb_neq in Ha.
      rewrite (handleAddSaving_sent E w user Hcu Ha).
      assert (tagged u (mk_world (ui w) (db w) (console w)
                 (wire w ++ [insert_savings
                    [new_saving user (amount (ui w)) (description (ui w))]])))
        as Hsent.
      { destruct Ht as (Hc & Hs). split; [exact Hc|].
        unfold submitted; cbn. rewrite flat_map_app. apply Forall_app.
        split; [exact Hs|]. cbn. constructor; [|constructor].
        cbn. f_equal. now apply Hc. }
      destruct (net E _); try exact Hsent.
      destruct (Db.insert_saving _ _ _ _ _) as [[e|] db']; [exact Hsent|].
      apply loadData_tagged; [exact Hu|].
      destruct Hsent as (Hc & Hs). split; [|exact Hs]. exact Hc.
    + now rewrite handleAddSaving_guarded by auto.
  - rewrite handleDeleteSaving_sent.
    assert (tagged u (mk_world (ui w) (db w) (console w)
                        (wire w ++ [delete_savings_eq_id id]))) as Hsent.
    { destruct Ht as (Hc & Hs). split; [exact Hc|].
      unfold submitted; cbn. rewrite flat_map_app; cbn.
      now rewrite app_nil_r. }
    destruct (net E _); try exact Hsent.
    apply loadData_tagged; [exact Hu|].
    destruct Hsent as (Hc & Hs). split; assumption.
Qed.

Lemma run_tagged (u : uuid) (evs : list (Env * event)) :
  session_of (Some u) evs ->
  forall w, tagged u w -> tagged u (run evs w).
Proof.
  induction 1 as [|[E ev] evs HE _ IH]; intros w Hw; cbn [run].
  - exact Hw.
  - apply IH. now apply handle_tagged.
Qed.

End C2.

Section C2_statement.
Import Supabase SavingsTracker.

(** C2. For distinct identities [A] and [B], an insert issued by [A] that
    carries a row with [user_id = B] is rejected by the store and creates no
    row. The client tags each new saving with the id of the profile it
    cached for the caller, whatever was typed into the form; in a session
    of [A] every row it submits carries [user_id = A]. *)
Theorem insert_for_another_identity_rejected (A B : uuid) (d : Db.defaults)
  (vs : list Db.saving_values) (store : Db.t) (evs : list (Env * event)) :
  A <> B ->
  (exists v, In v vs /\ Db.v_user_id v = Some B) ->
  session_of (Some A) evs ->
  (exists e, Db.insert_savings (Some A) d vs store = (Some e, store))
  /\ (exists e, serve_insert_savings vs (Some A) d store
                = (mk_response None (Some (PostgrestError e)), store))
  /\ Forall (fun v => Db.v_user_id v = Some A)
       (submitted (run evs (mounted store)))
  /\ (forall user typed_amount typed_description,
        Db.v_user_id (new_saving user typed_amount typed_description)
        = Some (Profile.id user)).
Proof.
  intros Hne Hbad Hsession.
  assert (exists e, Db.insert_savings (Some A) d vs store = (Some e, store))
    as (e & He).
  { destruct (insert_rows_foreign A B d vs Hne Hbad 0%nat store) as (e & He).
    exists e. unfold Db.insert_savings.
    destruct (Db.insert_rows _ _ _ _ _) as [o db']; cbn in He. now subst o. }
  split; [eauto|]. split.
  { exists e. unfold serve_insert_savings. now rewrite He. }
  split; [|reflexivity].
  apply (run_tagged A evs Hsession (mounted store)).
  split; [discriminate|constructor].
Qed.

Lemma insert_for_another_identity_rejected_witness :
  let foreign_row :=
    Db.mk_saving_values None (Some Sample.U2) (Some (Number.of_Z 50))
      None None in
  let evs :=
    [(Sample.online (Some Sample.U1), Mount);
     (Sample.online (Some Sample.U1), TypeAmount "100");
     (Sample.online (Some Sample.U1), Submit)] in
  (exists e,
     Db.insert_savings (Some Sample.U1) (Sample.server 0) [foreign_row]
       Sample.two_users
     = (Some e, Sample.two_users))
  /\ Forall (fun v => Db.v_user_id v = Some Sample.U1)
       (submitted (run evs (mounted Sample.two_users)))
  /\ List.length (submitted (run evs (mounted Sample.two_users))) = 1%nat.
Proof.
  intros foreign_row evs.
  destruct (insert_for_another_identity_rejected Sample.U1 Sample.U2
              (Sample.server 0) [foreign_row] Sample.two_users evs)
    as (H1 & _ & H3 & _).
  - discriminate.
  - exists foreign_row; split; [left; reflexivity|reflexivity].
  - repeat constructor.
  - repeat split; [exact H1|exact H3].
Defined.

End C2_statement.

(** ** ORDER BY: a sorted rearrangement *)

Section OrderByFacts.
Context {row : Type}.
Variable key : row -> timestamptz.
Variable ascending : bool.

Lemma before_total (a b : row) :
  Db.ordered key ascending a b \/ Db.ordered key ascending b a.
Proof.
  unfold Db.ordered, Db.before. destruct ascending; rewrite !Z.leb_le; lia.
Qed.

Lemma place_perm (x : row) (l : list row) :
  Permutation (Db.place key ascending x l) (x :: l).
Proof.
  induction l as [|y l IH]; cbn; [reflexivity|].
  destruct (Db.before key ascending x y); [reflexivity|].
  rewrite IH. apply perm_swap.
Qed.

Lemma order_by_perm (l : list row) :
  Permutation (Db.order_by key ascending l) l.
Proof.
  induction l as [|x l IH]; cbn; [constructor|].
  rewrite place_perm. now constructor.
Qed.

Lemma place_hd (y x : row) (l : list row) :
  HdRel (Db.ordered key ascending) y l ->
  Db.ordered key ascending y x ->
  HdRel (Db.ordered key ascending) y (Db.place key ascending x l).
Proof.
  intros Hl Hx. destruct l as [|z l]; cbn; [now constructor|].
  destruct (Db.before key ascending x z); constructor; [assumption|].
  now inversion Hl.
Qed.

Lemma place_sorted (x : row) (l : list row) :
  Sorted (Db.ordered key ascending) l ->
  Sorted (Db.ordered key ascending) (Db.place key ascending x l).
Proof.
  induction 1 as [|y l Hs IH Hhd]; cbn.
  - repeat constructor.
  - destruct (Db.before key ascending x y) eqn:Hxy.
    + constructor; [now constructor|]. now constructor.
    + constructor; [exact IH|]. apply place_hd; [exact Hhd|].
      destruct (before_total x y) as [H|H]; [unfold Db.ordered in H; congruence
                                            |exact H].
  Qed.

Lemma order_by_sorted (l : list row) :
  Sorted (Db.ordered key ascending) (Db.order_by key ascending l).
Proof.
  induction l as [|x l IH]; cbn; [constructor|]. now apply place_sorted.
Qed.

End OrderByFacts.

(** ** C3: reads are not filtered by ownership *)

Section C3.
Import Supabase SavingsTracker.

Lemma select_savings_all (u : uuid) (db : Db.t) :
  Db.select_savings (Some u) (fun _ => true) db = Db.savings db.
Proof. unfold Db.select_savings. now apply filter_all. Qed.

Lemma select_profiles_all (u : uuid) (db : Db.t) :
  Db.select_profiles (Some u) (fun _ => true) db = Db.profiles db.
Proof. unfold Db.select_profiles. now apply filter_all. Qed.

(** C3. For an authenticated identity the read of savings and the read of
    profiles answer with every row of the table, whoever owns it, in the
    requested order; and the component stores exactly the rows it was
    answered, all of them, from which the totals are then derived. *)
Theorem reads_return_the_shared_set (u : uuid) (E : Env) (w : World) :
  who E = Some u ->
  net E (List.length (wire w)) = Up ->
  net E (S (List.length (wire w))) = Up ->
  net E (S (S (List.length (wire w)))) = Up ->
  let w' := snd (loadData E w) in
  Db.select_savings (Some u) (fun _ => true) (db w) = Db.savings (db w)
  /\ Db.select_profiles (Some u) (fun _ => true) (db w) = Db.profiles (db w)
  /\ data (serve_select_savings (Some u) (db w)) = Some (savings (ui w'))
  /\ data (serve_select_profiles (Some u) (db w)) = Some (profiles (ui w'))
  /\ Permutation (savings (ui w')) (Db.savings (db w))
  /\ Permutation (profiles (ui w')) (Db.profiles (db w))
  /\ (forall s, In s (Db.savings (db w)) <-> In s (savings (ui w')))
  /\ (forall p, In p (Db.profiles (db w)) <-> In p (profiles (ui w'))).
Proof.
  intros Hu T1 T2 T3 w'.
  assert (savings (ui w')
          = Db.order_by Saving.created_at false (Db.savings (db w))) as Hs.
  { unfold w'.
    rewrite (loadData_settled E w u Hu) by (now rewrite ?T1, ?T2, ?T3).
    cbn. rewrite T3; cbn. now rewrite select_savings_all. }
  assert (profiles (ui w')
          = Db.order_by Profile.created_at true (Db.profiles (db w))) as Hp.
  { unfold w'.
    rewrite (loadData_settled E w u Hu) by (now rewrite ?T1, ?T2, ?T3).
    cbn. rewrite T1; cbn. now rewrite select_profiles_all. }
  split; [apply select_savings_all|].
  split; [apply select_profiles_all|].
  split; [cbn; now rewrite select_savings_all, Hs|].
  split; [cbn; now rewrite select_profiles_all, Hp|].
  assert (Permutation (savings (ui w')) (Db.savings (db w))) as Ps
    by (rewrite Hs; apply order_by_perm).
  assert (Permutation (profiles (ui w')) (Db.profiles (db w))) as Pp
    by (rewrite Hp; apply order_by_perm).
  repeat split; auto; intros H.
  - eapply Permutation_in; [symmetry; exact Ps|exact H].
  - eapply Permutation_in; [exact Ps|exact H].
  - eapply Permutation_in; [symmetry; exact Pp|exact H].
  - eapply Permutation_in; [exact Pp|exact H].
Qed.

Lemma reads_return_the_shared_set_witness :
  let shared :=
    Db.mk [Sample.U1; Sample.U2] [Sample.alice; Sample.bob]
      [Sample.saving "a" Sample.U1 "50" 3;
       Sample.saving "b" Sample.U2 "75" 4] in
  let w' := snd (loadData (Sample.online (Some Sample.U1)) (mounted shared)) in
  Permutation (savings (ui w')) (Db.savings shared)
  /\ savings (ui w')
     = [Sample.saving "b" Sample.U2 "75" 4; Sample.saving "a" Sample.U1 "50" 3].
Proof.
  intros shared w'.
  destruct (reads_return_the_shared_set Sample.U1
              (Sample.online (Some Sample.U1)) (mounted shared))
    as (_ & _ & _ & _ & P & _); try reflexivity.
  split; [exact P|reflexivity].
Defined.

End C3.

(** ** C4: the constraints of the savings table *)

Section C4.

Lemma mem_profile_ids (u : uuid) (ps : list Profile.t) :
  Db.mem u (Db.profile_ids ps) = true
  <-> exists p, In p ps /\ Profile.id p = u.
Proof.
  rewrite mem_In. unfold Db.profile_ids. rewrite in_map_iff.
  split; intros (p & H1 & H2); exists p; auto.
Qed.


Lemma cascade_sound (gone : Profile.t -> bool) (db : Db.t) :
  savings_sound db -> savings_sound (Db.cascade_profiles gone db).
Proof.
  intros H s Hs. cbn in Hs. apply filter_In in Hs as (Hs & Hkeep).
  destruct (H s Hs) as (Hpos & p & Hp & Hid). split; [exact Hpos|].
  exists p; split; [|exact Hid]. cbn. apply filter_In; split; [exact Hp|].
  destruct (gone p) eqn:Hg; [|reflexivity].
  apply negb_true_iff in Hkeep.
  assert (Db.mem (Saving.user_id s)
            (Db.profile_ids (filter gone (Db.profiles db))) = true) as Hm.
  { apply mem_profile_ids. exists p; split; [|exact Hid].
    apply filter_In; auto. }
  congruence.
Qed.

Lemma insert_saving_sound (c : Rls.caller) (fresh : uuid)
  (now : timestamptz) (v : Db.saving_values) (db : Db.t) :
  savings_sound db ->
  savings_sound (snd (Db.insert_saving c fresh now v db)).
Proof.
  intros H. unfold Db.insert_saving.
  destruct (Db.v_user_id v) as [u|]; [|exact H].
  destruct (Db.v_amount v) as [a|]; [|exact H].
  destruct (negb (Rls.insertable _ _ _)); [exact H|].
  destruct (negb (Schema.amount_check a)) eqn:Ha; [exact H|].
  destruct (Db.mem _ (Db.saving_ids _)); [exact H|].
  destruct (negb (Db.mem u _)) eqn:Hfk; [exact H|].
  apply negb_false_iff in Ha, Hfk. cbn.
  intros s Hs. apply in_app_iff in Hs as [Hs|[<-|[]]]; [now apply H|].
  cbn. split; [exact Ha|]. now apply mem_profile_ids.
Qed.

Lemma insert_rows_sound (c : Rls.caller) (d : Db.defaults)
  (vs : list Db.saving_values) :
  forall n db, savings_sound db ->
    savings_sound (snd (Db.insert_rows c d n vs db)).
Proof.
  induction vs as [|v vs IH]; intros n db H; cbn [Db.insert_rows];
    [exact H|].
  pose proof (insert_saving_sound c (Db.gen_random_uuid d n) (Db.now d) v db H)
    as H1.
  destruct (Db.insert_saving _ _ _ v db) as [[e|] db']; [exact H|].
  now apply IH.
Qed.

Lemma step_sound (db db' : Db.t) :
  savings_sound db -> step db db' -> savings_sound db'.
Proof.
  intros H Hstep. destruct Hstep.
  - (* sign-up *)
    unfold Db.sign_up. now destruct (Db.has_user db u).
  - (* an account is removed *)
    unfold Db.remove_user.
    exact (cascade_sound (fun p => String.eqb (Profile.id p) u) db H).
  - (* INSERT INTO profiles *)
    unfold Db.insert_profile.
    destruct (Db.pv_id v) as [i|]; [|exact H].
    destruct (Db.pv_name v) as [n|]; [|exact H].
    repeat match goal with
      | |- context [if ?b then _ else _] => destruct b; [exact H|]
      end.
    cbn. intros s Hs. destruct (H s Hs) as (Hpos & p & Hp & Hid).
    split; [exact Hpos|]. exists p. split; [|exact Hid].
    apply in_app_iff; now left.
  - (* UPDATE profiles *)
    unfold Db.update_profiles.
    repeat match goal with
      | |- context [if negb ?b then _ else _] => destruct (negb b); [exact H|]
      end.
    match goal with
    | |- context [if existsb ?f ?l then _ else _] =>
        destruct (existsb f l) eqn:Horph; [exact H|]
    end.
    cbn. intros s Hs. destruct (H s Hs) as (Hpos & p & Hp & Hid).
    split; [exact Hpos|].
    apply not_true_iff_false in Horph.
    destruct (Rls.updatable Schema.profiles_policies c p && pred p) eqn:Hhit.
    + (* the owner was updated: its key must still be in the table *)
      cbn [Db.profiles].
      match goal with
      | |- exists q, In q ?table /\ _ =>
          destruct (Db.mem (Profile.id p) (Db.profile_ids table)) eqn:Hm
      end.
      * apply mem_profile_ids in Hm as (q & Hq & Hqid).
        exists q; split; [exact Hq|congruence].
      * exfalso. apply Horph. apply existsb_exists.
        exists p; split; [apply filter_In; auto|].
        rewrite Hm; cbn. rewrite andb_true_r. apply mem_In.
        rewrite Hid. now apply in_map.
    + exists p; split; [|exact Hid].
      apply in_map_iff. exists p. now rewrite Hhit.
  - (* DELETE FROM profiles *)
    now apply cascade_sound.
  - (* INSERT INTO savings *)
    unfold Db.insert_savings.
    pose proof (insert_rows_sound c d vs 0%nat db H) as H1.
    destruct (Db.insert_rows c d 0 vs db) as [[e|] db']; [exact H|exact H1].
  - (* UPDATE savings *)
    unfold Db.update_savings.
    set (hit := fun r => Rls.updatable Schema.savings_policies c r && pred r).
    match goal with
    | |- context [if negb (forallb ?f ?l)
                  then (Some (Db.insufficient_privilege _), _) else _] =>
        destruct (forallb f l); [|exact H]
    end.
    match goal with
    | |- context [if negb (forallb ?f ?l)
                  then (Some (Db.check_violation _), _) else _] =>
        destruct (forallb f l) eqn:Hck; [|exact H]
    end.
    destruct (Db.distinct _); [|exact H].
    match goal with
    | |- context [if negb (forallb ?f ?l)
                  then (Some (Db.foreign_key_violation _), _) else _] =>
        destruct (forallb f l) eqn:Hfk; [|exact H]
    end.
    rewrite forallb_forall in Hck, Hfk.
    cbn. intros s Hs. apply in_map_iff in Hs as (r & <- & Hr).
    change (Rls.updatable Schema.savings_policies c r && pred r)
      with (hit r).
    cbn [Db.profiles].
    destruct (hit r) eqn:Hhit; [|now apply H].
    assert (In (set r) (map set (filter hit (Db.savings db)))) as Hnew
      by (apply in_map, filter_In; auto).
    split; [exact (Hck _ Hnew)|].
    apply mem_profile_ids. exact (Hfk _ Hnew).
  - (* DELETE FROM savings *)
    cbn. intros s Hs. apply filter_In in Hs as (Hs & _). now apply H.
Qed.






End C4.

(** ** C6: what the guard of handleAddSaving lets through *)

Section C6.
Import Supabase SavingsTracker.

Lemma json_non_positive (x : Number.t) :
  non_positive x ->
  match json_number x with
  | Some a => Schema.amount_check a = false
  | None => True
  end.
Proof.
  unfold non_positive, SFleb.
  destruct x as [[|]|[|]| |[|] m e]; cbn; try exact (fun _ => I);
    try reflexivity; discriminate.
Qed.

Lemma insert_saving_unacceptable (c : Rls.caller) (fresh : uuid)
  (now : timestamptz) (v : Db.saving_values) (db : Db.t) :
  match Db.v_amount v with
  | Some a => Schema.amount_check a = false
  | None => True
  end ->
  exists e, Db.insert_saving c fresh now v db = (Some e, db).
Proof.
  unfold Db.insert_saving.
  destruct (Db.v_user_id v) as [u|]; [|eauto].
  destruct (Db.v_amount v) as [a|]; [|eauto].
  intros Ha. destruct (negb (Rls.insertable _ _ _)); [eauto|].
  rewrite Ha; cbn. eauto.
Qed.

Lemma handleAddSaving_refused (E : Env) (w : World) (user : Profile.t) :
  currentUser (ui w) = Some user ->
  amount (ui w) <> "" ->
  non_positive (Str.parseFloat (amount (ui w))) ->
  exists e,
    handleAddSaving E w
    = (inr tt,
       mk_world (ui w) (db w)
         (console w ++ [("Error adding saving:", e)])
         (wire w ++ [insert_savings
                       [new_saving user (amount (ui w))
                          (description (ui w))]])).
Proof.
  intros Hu Ha Hneg. rewrite (handleAddSaving_sent E w user Hu Ha).
  destruct (net E _); [|eauto..].
  destruct (insert_saving_unacceptable (who E)
              (Db.gen_random_uuid (server E (List.length (wire w))) 0)
              (Db.now (server E (List.length (wire w))))
              (new_saving user (amount (ui w)) (description (ui w)))
              (db w)) as (e & He).
  { cbn. now apply json_non_positive. }
  rewrite He. eauto.
Qed.

(** C6, as the code has it. handleAddSaving is a no-op, sending nothing
    and leaving the state as it is, exactly when no profile is cached or the
    amount field is the empty string. A non-empty amount that parses to a
    non-positive number (such as "-10" or "0") is sent to the store in one
    insert; that insert creates no row, the failure is logged, and the
    component state, input fields included, stays as it is. *)
Theorem addSaving_guard_and_refusal (E : Env) (w : World) :
  let w' := snd (handleAddSaving E w) in
  (handleAddSaving E w = (inr tt, w)
   <-> currentUser (ui w) = None \/ amount (ui w) = "")
  /\ (forall user,
        currentUser (ui w) = Some user ->
        amount (ui w) <> "" ->
        non_positive (Str.parseFloat (amount (ui w))) ->
        wire w' = wire w ++ [insert_savings
                               [new_saving user (amount (ui w))
                                  (description (ui w))]]
        /\ db w' = db w
        /\ ui w' = ui w
        /\ exists e, console w' = console w ++ [("Error adding saving:", e)]).
Proof.
  cbn zeta. split.
  - split; [|apply handleAddSaving_guarded].
    intros Hnoop.
    destruct (currentUser (ui w)) as [user|] eqn:Hu; [|now left].
    destruct (string_dec (amount (ui w)) "") as [Ha|Ha]; [now right|].
    exfalso.
    assert (exists k, wire (snd (handleAddSaving E w))
                      = (wire w ++ [insert_savings
                            [new_saving user (amount (ui w))
                               (description (ui w))]]) ++ k) as (k & Hk).
    { rewrite (handleAddSaving_sent E w user Hu Ha).
      destruct (net E _); try (exists []; now rewrite app_nil_r).
      destruct (Db.insert_saving _ _ _ _ _) as [[e|] db'];
        [exists []; now rewrite app_nil_r|].
      match goal with
      | |- context [loadData ?E ?w0] =>
          destruct (loadData_frame E w0) as (_ & _ & _ & _ & _ & _ & k & Hk)
      end.
      rewrite Hk. cbn [wire]. eauto. }
    rewrite Hnoop in Hk. cbn in Hk.
    apply (f_equal (@List.length request)) in Hk.
    rewrite !length_app in Hk. cbn in Hk. lia.
  - intros user Hu Ha Hneg.
    destruct (handleAddSaving_refused E w user Hu Ha Hneg) as (e & He).
    rewrite He; cbn. repeat split. eauto.
Qed.

Lemma addSaving_guard_and_refusal_witness :
  let E := Sample.online (Some Sample.U1) in
  let w := run [(E, Mount); (E, TypeAmount "0")] (mounted Sample.two_users) in
  let w' := snd (handleAddSaving E w) in
  non_positive (Str.parseFloat "0")
  /\ wire w' = wire w ++ [insert_savings [new_saving Sample.alice "0" ""]]
  /\ db w' = Sample.two_users
  /\ ui w' = ui w.
Proof.
  intros E w w'.
  destruct (addSaving_guard_and_refusal E w) as (_ & H).
  destruct (H Sample.alice) as (H1 & H2 & H3 & _);
    [reflexivity|discriminate|reflexivity|].
  split; [reflexivity|]. split; [exact H1|]. split; [exact H2|exact H3].
Defined.

(** The claim as the spec words it fails: with a profile loaded and "-10"
    typed, the client does send the insert, and the store refuses it. *)
Lemma addSaving_sends_negative_amount :
  let E := Sample.online (Some Sample.U1) in
  let w := run [(E, Mount); (E, TypeAmount "-10")] (mounted Sample.two_users) in
  let w' := snd (handleAddSaving E w) in
  Str.parseFloat "-10" = Number.of_Z (-10)
  /\ non_positive (Str.parseFloat "-10")
  /\ submitted w = []
  /\ submitted w'
     = [Db.mk_saving_values None (Some Sample.U1) (Some (Number.of_Z (-10)))
          (Some "") None]
  /\ console w'
     = [("Error adding saving:",
         PostgrestError (Db.check_violation "savings_amount_check"))]
  /\ db w' = Sample.two_users.
Proof. vm_compute. repeat split. Qed.

End C6.

(** ** C7: no authenticated identity *)

Section C7.
Import Supabase SavingsTracker.





Lemma cascade_nobody (gone : Profile.t -> bool) (db : Db.t) :
  (forall p, gone p = false) -> Db.cascade_profiles gone db = db.
Proof.
  intros H. unfold Db.cascade_profiles.
  rewrite (filter_none gone) by auto.
  rewrite !filter_all; [now destruct db|..]; intros x _;
    [reflexivity|now rewrite H].
Qed.






End C7.

(** ** Primary keys *)

Section Keys.

Lemma distinct_NoDup (l : list uuid) : Db.distinct l = true <-> NoDup l.
Proof.
  induction l as [|x l IH]; cbn.
  - split; [constructor|reflexivity].
  - rewrite andb_true_iff, negb_true_iff, IH. split.
    + intros (Hx & Hl). constructor; [|exact Hl].
      rewrite <- mem_In. congruence.
    + intros H. inversion H as [|? ? Hx Hl]; subst. split; [|exact Hl].
      apply not_true_iff_false. now rewrite mem_In.
Qed.

Lemma NoDup_ids_filter {A : Type} (key : A -> uuid) (f : A -> bool)
  (l : list A) :
  NoDup (map key l) -> NoDup (map key (filter f l)).
Proof.
  induction l as [|a l IH]; cbn; [auto|].
  intros H. inversion H as [|? ? Ha Hl]; subst.
  destruct (f a); cbn; [constructor|]; auto.
  intros Hin. apply Ha. apply in_map_iff in Hin as (b & Hb & Hin).
  apply filter_In in Hin as (Hin & _). apply in_map_iff. eauto.
Qed.

Lemma insert_rows_profiles (c : Rls.caller) (d : Db.defaults)
  (vs : list Db.saving_values) :
  forall n db,
    Db.profiles (snd (Db.insert_rows c d n vs db)) = Db.profiles db.
Proof.
  induction vs as [|v vs IH]; intros n db; cbn [Db.insert_rows];
    [reflexivity|].
  destruct (Db.insert_saving c _ _ v db) as [[e|] db'] eqn:Hins;
    [reflexivity|].
  rewrite IH. unfold Db.insert_saving in Hins.
  repeat match type of Hins with
    | (match ?x with _ => _ end) = _ => destruct x
    | (if ?x then _ else _) = _ => destruct x
    end; inversion Hins; reflexivity.
Qed.

Lemma step_profile_keys (db db' : Db.t) :
  NoDup (Db.profile_ids (Db.profiles db)) -> step db db' ->
  NoDup (Db.profile_ids (Db.profiles db')).
Proof.
  intros H Hstep. destruct Hstep.
  - unfold Db.sign_up. now destruct (Db.has_user db u).
  - cbn. now apply NoDup_ids_filter.
  - unfold Db.insert_profile.
    destruct (Db.pv_id v) as [i|]; [|exact H].
    destruct (Db.pv_name v) as [n|]; [|exact H].
    destruct (negb (Rls.insertable _ _ _)); [exact H|].
    destruct (Db.mem i _) eqn:Hm; [exact H|].
    destruct (negb (Db.has_user db i)); [exact H|].
    cbn. unfold Db.profile_ids in *. rewrite map_app. cbn.
    apply NoDup_app; [exact H|repeat constructor; auto|].
    intros a Ha [<-|[]]. apply mem_In in Ha.
    unfold Db.profile_ids in Hm. congruence.
  - unfold Db.update_profiles.
    match goal with
    | |- context [if negb (forallb ?f ?l)
                  then (Some (Db.insufficient_privilege _), _) else _] =>
        destruct (forallb f l); [|exact H]
    end.
    destruct (Db.distinct _) eqn:Hd; [|exact H].
    repeat match goal with
      | |- context [if ?b then _ else _] => destruct b; [exact H|]
      end.
    cbn. now apply distinct_NoDup.
  - cbn. now apply NoDup_ids_filter.
  - unfold Db.insert_savings.
    pose proof (insert_rows_profiles c d vs 0%nat db) as Hrows.
    destruct (Db.insert_rows c d 0 vs db) as [[e|] db']; [exact H|].
    cbn in *. now rewrite Hrows.
  - unfold Db.update_savings.
    repeat match goal with
      | |- context [if ?b then _ else _] => destruct b; [exact H|]
      end.
    exact H.
  - exact H.
Qed.

Lemma reachable_profile_keys (db : Db.t) :
  reachable db -> NoDup (Db.profile_ids (Db.profiles db)).
Proof.
  induction 1 as [|db db' _ IH Hstep]; [constructor|].
  exact (step_profile_keys db db' IH Hstep).
Qed.

(** With distinct keys, [.eq('id', u)] selects at most one profile. *)
Lemma at_most_one_profile (u : uuid) (c : Rls.caller) (db : Db.t) :
  NoDup (Db.profile_ids (Db.profiles db)) ->
  Supabase.error (Supabase.serve_select_profile u c db) = None.
Proof.
  intros H. unfold Supabase.serve_select_profile, Db.select_profiles.
  set (f := fun r => Rls.visible Schema.profiles_policies c r
                     && String.eqb (Profile.id r) u).
  pose proof (NoDup_ids_filter Profile.id f (Db.profiles db) H) as Hnd.
  assert (forall r, In r (filter f (Db.profiles db)) -> Profile.id r = u)
    as Hid.
  { intros r Hr. apply filter_In in Hr as (_ & Hr). unfold f in Hr.
    apply andb_true_iff in Hr as (_ & Hr). now apply String.eqb_eq. }
  destruct (filter f (Db.profiles db)) as [|r [|r' l]]; try reflexivity.
  exfalso. cbn in Hnd. inversion Hnd as [|? ? Hr _]; subst. apply Hr.
  left. rewrite (Hid r), (Hid r'); cbn; auto.
Qed.

End Keys.

(** ** C9 and C10: one load cycle, read by read and field by field *)

Section LoadCycle.
Import Supabase SavingsTracker.

Lemma Sorted_weaken {A : Type} (R Q : A -> A -> Prop) (l : list A) :
  (forall a b, R a b -> Q a b) -> Sorted R l -> Sorted Q l.
Proof.
  intros HRQ. induction 1 as [|a l _ IH Hhd]; constructor; [exact IH|].
  destruct Hhd; constructor; auto.
Qed.

(** Each field after a load cycle of [u]: its previous value, or the data
    its own read was answered with. *)
Lemma loadData_fields (E : Env) (w : World) (u : uuid) :
  who E = Some u ->
  let n := List.length (wire w) in
  let w' := snd (loadData E w) in
  (profiles (ui w') = profiles (ui w)
   \/ net E n = Up
      /\ data (serve_select_profiles (Some u) (db w))
         = Some (profiles (ui w')))
  /\ (currentUser (ui w') = currentUser (ui w)
      \/ net E (S n) = Up
         /\ data (serve_select_profile u (Some u) (db w))
            = currentUser (ui w')
         /\ currentUser (ui w') <> None)
  /\ (savings (ui w') = savings (ui w)
      \/ net E (S (S n)) = Up
         /\ data (serve_select_savings (Some u) (db w))
            = Some (savings (ui w'))).
Proof.
  intros Hu n w'. unfold w'.
  destruct (loadData_cases E w u Hu)
    as [(H1 & H2 & H3)|(k & msg & Hk & Hb & Hc)].
  - rewrite (loadData_settled E w u Hu H1 H2 H3); cbn. fold n.
    split; [|split].
    + destruct (net E n); cbn; auto.
    + destruct (net E (S n)); cbn; auto.
      destruct (data (serve_select_profile u (Some u) (db w))) eqn:Hd;
        [right|now left].
      repeat split; congruence.
    + destruct (net E (S (S n))); cbn; auto.
  - rewrite (loadData_crashed E w u k msg Hu Hk Hb Hc); cbn. auto.
Qed.

(** C9. A load cycle of a resolved identity [u], none of whose requests
    rejects, sends exactly three reads, each fixed by [u] alone: all
    profiles, answered in ascending order of creation; the profile whose id
    is [u], answered as no row or one; and all savings, answered in
    descending order of creation. *)
Theorem loadLedger_issues_three_reads (u : uuid) (E : Env) (w : World) :
  who E = Some u ->
  settles (net E (List.length (wire w))) = true ->
  settles (net E (S (List.length (wire w)))) = true ->
  settles (net E (S (S (List.length (wire w))))) = true ->
  wire (snd (loadData E w))
  = wire w ++ [select_profiles_order; select_profile_eq_id u;
               select_savings_order_desc]
  /\ (exists rows,
        serve_select_profiles (Some u) (db w) = mk_response (Some rows) None
        /\ Permutation rows (Db.profiles (db w))
        /\ Sorted (fun a b => Profile.created_at a <= Profile.created_at b)
             rows)
  /\ (serve_select_profile u (Some u) (db w) = mk_response None None
      \/ (exists p, serve_select_profile u (Some u) (db w)
                    = mk_response (Some p) None
                    /\ In p (Db.profiles (db w)) /\ Profile.id p = u)
      \/ serve_select_profile u (Some u) (db w)
         = mk_response None (Some MultipleRows))
  /\ (reachable (db w) ->
      error (serve_select_profile u (Some u) (db w)) = None)
  /\ (exists rows,
        serve_select_savings (Some u) (db w) = mk_response (Some rows) None
        /\ Permutation rows (Db.savings (db w))
        /\ Sorted (fun a b => Saving.created_at b <= Saving.created_at a)
             rows).
Proof.
  intros Hu H1 H2 H3.
  split; [now rewrite (loadData_settled E w u Hu H1 H2 H3)|].
  split; [|split; [|split]].
  - eexists; split; [reflexivity|].
    rewrite select_profiles_all. split; [apply order_by_perm|].
    eapply Sorted_weaken; [|apply order_by_sorted].
    intros a b. unfold Db.ordered, Db.before. apply Z.leb_le.
  - destruct (serve_select_profile u (Some u) (db w)) as [[p|] [e|]] eqn:Hsel.
    + exfalso. unfold serve_select_profile in Hsel.
      destruct (Db.select_profiles _ _ _) as [|? [|? ?]]; discriminate.
    + right; left. exists p. split; [reflexivity|].
      apply and_comm. apply (serve_select_profile_id u (Some u)).
      now rewrite Hsel.
    + right; right. unfold serve_select_profile in Hsel.
      destruct (Db.select_profiles _ _ _) as [|? [|? ?]]; congruence.
    + now left.
  - intros Hreach. apply at_most_one_profile.
    now apply reachable_profile_keys.
  - eexists; split; [reflexivity|].
    rewrite select_savings_all. split; [apply order_by_perm|].
    eapply Sorted_weaken; [|apply order_by_sorted].
    intros a b. unfold Db.ordered, Db.before. apply Z.leb_le.
Qed.

Lemma loadLedger_issues_three_reads_witness :
  let shared :=
    Db.mk [Sample.U1; Sample.U2] [Sample.bob; Sample.alice]
      [Sample.saving "a" Sample.U1 "50" 3;
       Sample.saving "b" Sample.U2 "75" 4] in
  let E := Sample.online (Some Sample.U2) in
  wire (snd (loadData E (mounted shared)))
  = [select_profiles_order; select_profile_eq_id Sample.U2;
     select_savings_order_desc]
  /\ serve_select_profiles (Some Sample.U2) shared
     = mk_response (Some [Sample.alice; Sample.bob]) None
  /\ serve_select_profile Sample.U2 (Some Sample.U2) shared
     = mk_response (Some Sample.bob) None
  /\ serve_select_savings (Some Sample.U2) shared
     = mk_response
         (Some [Sample.saving "b" Sample.U2 "75" 4;
                Sample.saving "a" Sample.U1 "50" 3]) None.
Proof.
  intros shared E.
  destruct (loadLedger_issues_three_reads Sample.U2 E (mounted shared))
    as (Hwire & _); try reflexivity.
  split; [exact Hwire|]. repeat split.
Defined.

(** C10. loadData clears no field. With no user resolved it returns before
    any fetch. Otherwise, whatever the three fetches do, each of profiles,
    currentUser and savings either keeps its previous value or holds the
    non-null data its own fetch was answered with. *)
Theorem loadData_never_clears (E : Env) (w : World) :
  let n := List.length (wire w) in
  let w' := snd (loadData E w) in
  match who E with
  | None =>
      wire w' = wire w
      /\ profiles (ui w') = profiles (ui w)
      /\ currentUser (ui w') = currentUser (ui w)
      /\ savings (ui w') = savings (ui w)
  | Some u =>
      (profiles (ui w') = profiles (ui w)
       \/ net E n = Up
          /\ data (serve_select_profiles (Some u) (db w))
             = Some (profiles (ui w')))
      /\ (currentUser (ui w') = currentUser (ui w)
          \/ net E (S n) = Up
             /\ data (serve_select_profile u (Some u) (db w))
                = currentUser (ui w')
             /\ currentUser (ui w') <> None)
      /\ (savings (ui w') = savings (ui w)
          \/ net E (S (S n)) = Up
             /\ data (serve_select_savings (Some u) (db w))
                = Some (savings (ui w')))
  end.
Proof.
  cbn zeta. destruct (who E) as [u|] eqn:Hu.
  - exact (loadData_fields E w u Hu).
  - rewrite (loadData_anon E w Hu); cbn. now repeat split.
Qed.

End LoadCycle.

(** ** C8: failures *)

Section C8.
Import Supabase SavingsTracker.






End C8.

(** ** Adding whole numbers below 2^53 is exact *)

Section ExactSums.
Import Number.

Lemma shl_value p j : Zpos (shl p j) = Zpos p * 2 ^ Z.of_nat j.
Proof.
  induction j as [|j IH].
  - cbn. lia.
  - unfold shl in *. rewrite Nat.iter_succ, Pos2Z.inj_xO, IH.
    rewrite Nat2Z.inj_succ, Z.pow_succ_r by lia. ring.
Qed.

Lemma shl_shl p i j : shl (shl p i) j = shl p (i + j).
Proof. unfold shl. rewrite Nat.add_comm. symmetry. apply Nat.iter_add. Qed.

Lemma digits_shl p j :
  Zpos (digits2_pos (shl p j)) = Zpos (digits2_pos p) + Z.of_nat j.
Proof.
  induction j as [|j IH]; [cbn; lia|].
  unfold shl in *. rewrite Nat.iter_succ. cbn [digits2_pos].
  rewrite Pos2Z.inj_succ, IH. lia.
Qed.

Lemma iter_pos_nat {A} (f : A -> A) p x :
  iter_pos f p x = Nat.iter (Pos.to_nat p) f x.
Proof.
  revert x. induction p as [p IH|p IH|]; intros x; cbn [iter_pos].
  - rewrite !IH. rewrite Pos2Nat.inj_xI.
    replace (S (2 * Pos.to_nat p))
      with (Pos.to_nat p + (Pos.to_nat p + 1))%nat by lia.
    rewrite !Nat.iter_add. cbn. reflexivity.
  - rewrite !IH. rewrite Pos2Nat.inj_xO.
    replace (2 * Pos.to_nat p)%nat
      with (Pos.to_nat p + Pos.to_nat p)%nat by lia.
    now rewrite Nat.iter_add.
  - reflexivity.
Qed.

Lemma pos_iter_nat {A} (f : A -> A) p x :
  Pos.iter f x p = Nat.iter (Pos.to_nat p) f x.
Proof.
  rewrite Pos2Nat.inj_iter. unfold Nat.iter. reflexivity.
Qed.

Lemma shr_shl c j :
  Nat.iter j shr_1 (Build_shr_record (Zpos (shl c j)) false false)
  = Build_shr_record (Zpos c) false false.
Proof.
  induction j as [|j IH]; [reflexivity|].
  rewrite Nat.iter_succ_r. unfold shl. rewrite Nat.iter_succ.
  cbn [shr_1 orb]. exact IH.
Qed.

(** Rounding a 53-bit mantissa that was shifted left gives it back. *)
Lemma round_aux_shifted c j t :
  Zpos (digits2_pos c) = 53 -> -1074 <= t <= 971 ->
  binary_round_aux prec emax false (Zpos (shl c j)) (t - Z.of_nat j)
    loc_Exact
  = S754_finite false c t.
Proof.
  intros Hc Ht. unfold binary_round_aux.
  assert (shr_fexp prec emax (Zpos (shl c j)) (t - Z.of_nat j) loc_Exact
          = (Build_shr_record (Zpos c) false false, t)) as ->.
  { unfold shr_fexp, Zdigits2, fexp, emin, prec, emax, shr_record_of_loc.
    rewrite digits_shl, Hc.
    replace (Z.max (53 + Z.of_nat j + (t - Z.of_nat j) - 53) (3 - 1024 - 53)
             - (t - Z.of_nat j)) with (Z.of_nat j) by lia.
    destruct j as [|j].
    - cbn. f_equal. lia.
    - unfold shr. cbn [Z.of_nat].
      rewrite iter_pos_nat, SuccNat2Pos.id_succ, shr_shl.
      f_equal. rewrite Zpos_P_of_succ_nat. lia. }
  cbn [shr_m loc_of_shr_record round_nearest_even].
  assert (shr_fexp prec emax (Zpos c) t loc_Exact
          = (Build_shr_record (Zpos c) false false, t)) as ->.
  { unfold shr_fexp, Zdigits2, fexp, emin, prec, emax, shr_record_of_loc.
    rewrite Hc. replace (Z.max (53 + t - 53) (3 - 1024 - 53) - t) with 0 by lia.
    reflexivity. }
  cbn [shr_m]. unfold prec, emax.
  destruct (Z.leb_spec t (1024 - 53)); [reflexivity|lia].
Qed.

Lemma bits_Z n : Z.of_nat (bits n) = Zpos (digits2_pos n).
Proof. unfold bits. apply positive_nat_Z. Qed.

Lemma digits_size p : digits2_pos p = Pos.size p.
Proof. induction p; cbn; congruence. Qed.

Lemma bits_bound n : Zpos n < 2 ^ 53 -> (bits n <= 53)%nat.
Proof.
  intros H. pose proof (Pos.size_le n) as Hle.
  apply Pos2Z.pos_le_pos in Hle. rewrite Pos2Z.inj_pow in Hle.
  rewrite (Pos2Z.inj_xO n) in Hle.
  assert (2 ^ Zpos (Pos.size n) < 2 ^ 54) as Hlt.
  { change (2 ^ 54) with (2 * 2 ^ 53). lia. }
  apply Z.pow_lt_mono_r_iff in Hlt; [|lia|lia].
  apply Nat2Z.inj_le. rewrite bits_Z, digits_size. lia.
Qed.

Lemma canon_digits n :
  (bits n <= 53)%nat -> Zpos (digits2_pos (shl n (53 - bits n))) = 53.
Proof.
  intros H. rewrite digits_shl, <- bits_Z. lia.
Qed.

(** An integer below 2^53, written with any number of trailing zero bits,
    rounds to itself. *)
Lemma round_integer n k :
  (bits n <= 53)%nat ->
  binary_round prec emax false (shl n k) (- Z.of_nat k) = canon n.
Proof.
  intros Hn. unfold binary_round, canon.
  rewrite digits_shl, <- bits_Z.
  replace (fexp prec emax (Z.of_nat (bits n) + Z.of_nat k + - Z.of_nat k))
    with (Z.of_nat (bits n) - 53)
    by (unfold fexp, emin, prec, emax; lia).
  unfold shl_align.
  destruct (Z.of_nat (bits n) - 53 - - Z.of_nat k) as [|p|p] eqn:Hd.
  - replace (shl n k) with (shl (shl n (53 - bits n)) 0)
      by (rewrite shl_shl; f_equal; lia).
    replace (- Z.of_nat k) with (Z.of_nat (bits n) - 53 - Z.of_nat 0) by lia.
    apply round_aux_shifted; [now apply canon_digits|lia].
  - replace (shl n k)
      with (shl (shl n (53 - bits n)) (k - (53 - bits n)))
      by (rewrite shl_shl; f_equal; lia).
    replace (- Z.of_nat k)
      with (Z.of_nat (bits n) - 53 - Z.of_nat (k - (53 - bits n))) by lia.
    apply round_aux_shifted; [now apply canon_digits|lia].
  - rewrite pos_iter_nat. fold (shl (shl n k) (Pos.to_nat p)).
    rewrite shl_shl.
    replace (k + Pos.to_nat p)%nat with (53 - bits n)%nat by lia.
    replace (shl n (53 - bits n)) with (shl (shl n (53 - bits n)) 0)
      by reflexivity.
    replace (Z.of_nat (bits n) - 53)
      with (Z.of_nat (bits n) - 53 - Z.of_nat 0) at 1 by lia.
    apply round_aux_shifted; [now apply canon_digits|lia].
Qed.

Lemma of_Z_canon n : Zpos n < 2 ^ 53 -> of_Z (Zpos n) = canon n.
Proof.
  intros H. apply bits_bound in H.
  exact (round_integer n 0 H).
Qed.

Lemma shl_align_value m e e' :
  e' <= e ->
  Zpos (fst (shl_align m e e')) = Zpos m * 2 ^ (e - e').
Proof.
  intros H. unfold shl_align. destruct (e' - e) as [|p|p] eqn:Hd; cbn [fst].
  - replace (e - e') with 0 by lia. lia.
  - lia.
  - rewrite pos_iter_nat. fold (shl m (Pos.to_nat p)). rewrite shl_value.
    rewrite positive_nat_Z. f_equal. f_equal. lia.
Qed.

Lemma add_canon a b :
  Zpos (a + b) < 2 ^ 53 ->
  add (canon a) (canon b) = canon (a + b).
Proof.
  intros H.
  assert (bits a <= 53)%nat as Ha by (apply bits_bound; lia).
  assert (bits b <= 53)%nat as Hb by (apply bits_bound; lia).
  assert (bits (a + b) <= 53)%nat as Hab by (apply bits_bound; lia).
  unfold add, canon, SFadd. cbn [cond_Zopp].
  set (ta := Z.of_nat (bits a) - 53). set (tb := Z.of_nat (bits b) - 53).
  set (ez := Z.min ta tb).
  assert (Zpos (fst (shl_align (shl a (53 - bits a)) ta ez))
          + Zpos (fst (shl_align (shl b (53 - bits b)) tb ez))
          = Zpos (shl (a + b) (Z.to_nat (- ez)))) as ->.
  { rewrite !shl_align_value by (unfold ez; lia).
    rewrite !shl_value, <- !Z.mul_assoc, <- !Z.pow_add_r
      by (unfold ez, ta, tb; lia).
    rewrite Pos2Z.inj_add, Z.mul_add_distr_r.
    f_equal; f_equal; f_equal; unfold ez, ta, tb; lia. }
  cbn [binary_normalize].
  replace ez with (- Z.of_nat (Z.to_nat (- ez))) at 2
    by (unfold ez, ta, tb; lia).
  now apply round_integer.
Qed.

Lemma add_of_Z a b :
  0 <= a -> 0 <= b -> a + b < 2 ^ 53 ->
  add (of_Z a) (of_Z b) = of_Z (a + b).
Proof.
  intros Ha Hb H.
  destruct a as [|a|a]; [|destruct b as [|b|b]|]; try lia.
  - destruct b as [|b|b]; try lia; [reflexivity|].
    cbn [Z.add]. rewrite of_Z_canon by lia. reflexivity.
  - rewrite Z.add_0_r, of_Z_canon by lia. reflexivity.
  - rewrite !of_Z_canon by lia. cbn [Z.add]. rewrite of_Z_canon by exact H.
    now apply add_canon.
Qed.

End ExactSums.

(** ** C5: the total and the per-user totals *)

Section C5.
Import SavingsTracker.

Lemma total_rupiah_cons (s : Saving.t) (S : list Saving.t) :
  total_rupiah (s :: S) = rupiah s + total_rupiah S.
Proof. reflexivity. Qed.

Lemma per_user_rupiah_cons (S : list Saving.t) (u : uuid) (ids : list uuid) :
  per_user_rupiah S (u :: ids)
  = total_rupiah (filter (by_user u) S) + per_user_rupiah S ids.
Proof. reflexivity. Qed.

Lemma total_rupiah_nonneg (S : list Saving.t) :
  Forall whole S -> 0 <= total_rupiah S.
Proof.
  induction 1 as [|s S (Hs & _) _ IH]; [cbn; lia|].
  rewrite total_rupiah_cons. lia.
Qed.

Lemma total_rupiah_filter (f : Saving.t -> bool) (S : list Saving.t) :
  Forall whole S ->
  0 <= total_rupiah (filter f S) <= total_rupiah S.
Proof.
  induction 1 as [|s S (Hs & Hw) HS IH]; [cbn; lia|].
  cbn [filter]. destruct (f s); rewrite !total_rupiah_cons; lia.
Qed.

Lemma whole_filter (f : Saving.t -> bool) (S : list Saving.t) :
  Forall whole S -> Forall whole (filter f S).
Proof.
  intros H. apply Forall_forall. intros s Hs. apply filter_In in Hs as (Hs & _).
  revert s Hs. now apply Forall_forall.
Qed.

(** The running sum of line 95, from a whole accumulator. *)
Lemma reduce_whole (S : list Saving.t) :
  Forall whole S ->
  forall acc, 0 <= acc -> acc + total_rupiah S < 2 ^ 53 ->
  fold_left (fun sum saving => Number.add sum (Number_ (Saving.amount saving)))
    S (Number.of_Z acc)
  = Number.of_Z (acc + total_rupiah S).
Proof.
  induction 1 as [|s S (Hs & Hw) HS IH]; intros acc Hacc Hsum.
  - cbn. now rewrite Z.add_0_r.
  - pose proof (total_rupiah_nonneg S HS) as Hnn.
    rewrite total_rupiah_cons in *. cbn [fold_left].
    unfold Number_ at 2. rewrite <- Hw, add_of_Z by lia.
    rewrite IH by lia. f_equal. lia.
Qed.

Lemma calculateTotal_whole (S : list Saving.t) :
  Forall whole S -> total_rupiah S < 2 ^ 53 ->
  calculateTotal S = Number.of_Z (total_rupiah S).
Proof.
  intros HS Hsum. unfold calculateTotal.
  change Number.zero with (Number.of_Z 0).
  rewrite reduce_whole by (auto; lia). reflexivity.
Qed.

Lemma calculateUserTotal_whole (S : list Saving.t) (u : uuid) :
  Forall whole S -> total_rupiah S < 2 ^ 53 ->
  calculateUserTotal S u = Number.of_Z (total_rupiah (filter (by_user u) S)).
Proof.
  intros HS Hsum.
  pose proof (total_rupiah_filter (by_user u) S HS).
  apply (calculateTotal_whole (filter (by_user u) S)); [|lia].
  now apply whole_filter.
Qed.

Lemma per_user_nonneg (S : list Saving.t) (ids : list uuid) :
  Forall whole S -> 0 <= per_user_rupiah S ids.
Proof.
  intros HS. induction ids as [|u ids IH]; [cbn; lia|].
  rewrite per_user_rupiah_cons.
  pose proof (total_rupiah_filter (by_user u) S HS). lia.
Qed.

Lemma sum_of_user_totals_whole (S : list Saving.t) :
  Forall whole S -> total_rupiah S < 2 ^ 53 ->
  forall ids acc, 0 <= acc -> acc + per_user_rupiah S ids < 2 ^ 53 ->
  fold_left (fun sum userId => Number.add sum (calculateUserTotal S userId))
    ids (Number.of_Z acc)
  = Number.of_Z (acc + per_user_rupiah S ids).
Proof.
  intros HS Hsum. induction ids as [|u ids IH]; intros acc Hacc Hb.
  - cbn. now rewrite Z.add_0_r.
  - rewrite per_user_rupiah_cons in *. cbn [fold_left].
    pose proof (total_rupiah_filter (by_user u) S HS).
    pose proof (per_user_nonneg S ids HS).
    rewrite calculateUserTotal_whole, add_of_Z by (auto; lia).
    rewrite IH by lia. f_equal. lia.
Qed.

(** Each row is counted under exactly one identifier. *)
Lemma one_owner (x : uuid) (v : Z) (ids : list uuid) :
  NoDup ids -> In x ids ->
  fold_right (fun u acc => (if String.eqb x u then v else 0) + acc) 0 ids = v.
Proof.
  induction 1 as [|u ids Hnot _ IH]; intros Hin; [destruct Hin|]. cbn.
  destruct (String.eqb_spec x u) as [->|Hne].
  - assert (fold_right (fun u0 acc => (if String.eqb u u0 then v else 0) + acc)
              0 ids = 0) as ->; [|lia].
    clear IH Hin. induction ids as [|w ids IH]; cbn; [reflexivity|].
    destruct (String.eqb_spec u w) as [->|_].
    + exfalso. apply Hnot. now left.
    + rewrite IH; [lia|]. intros Hin; apply Hnot; now right.
  - destruct Hin as [->|Hin]; [congruence|]. rewrite IH by exact Hin. lia.
Qed.

Lemma per_user_nil (ids : list uuid) : per_user_rupiah [] ids = 0.
Proof.
  induction ids as [|u ids IH]; [reflexivity|].
  rewrite per_user_rupiah_cons, IH. reflexivity.
Qed.

Lemma per_user_cons (s : Saving.t) (S : list Saving.t) (ids : list uuid) :
  per_user_rupiah (s :: S) ids
  = fold_right
      (fun u acc =>
         (if String.eqb (Saving.user_id s) u then rupiah s else 0) + acc)
      0 ids
    + per_user_rupiah S ids.
Proof.
  induction ids as [|u ids IH]; [reflexivity|].
  rewrite !per_user_rupiah_cons, IH. cbn [fold_right filter].
  unfold by_user at 1.
  destruct (String.eqb (Saving.user_id s) u);
    rewrite ?total_rupiah_cons; lia.
Qed.

Lemma per_user_partition (S : list Saving.t) (ids : list uuid) :
  NoDup ids ->
  (forall s, In s S -> In (Saving.user_id s) ids) ->
  per_user_rupiah S ids = total_rupiah S.
Proof.
  intros Hnd. induction S as [|s S IH]; intros Hall.
  - apply per_user_nil.
  - rewrite per_user_cons, total_rupiah_cons.
    rewrite IH by (intros; apply Hall; now right).
    rewrite one_owner; [reflexivity|exact Hnd|apply Hall; now left].
Qed.

(** C5, as the code has it. For savings in whole rupiah whose total stays
    below 2^53, every addition is exact and calculateTotal equals the sum,
    over the distinct user_id values present and in any order, of
    calculateUserTotal. calculateTotal sums the amounts of all rows,
    calculateUserTotal those of the rows of one user_id, and every row is
    counted under exactly one of the distinct identifiers. *)
Theorem total_is_sum_of_user_totals (S : list Saving.t) :
  Forall whole S ->
  total_rupiah S < 2 ^ 53 ->
  calculateTotal S = sum_of_user_totals S (user_ids S)
  /\ (forall ids,
        NoDup ids -> (forall u, In u ids <-> In u (user_ids S)) ->
        calculateTotal S = sum_of_user_totals S ids)
  /\ (forall u, calculateUserTotal S u = calculateTotal (filter (by_user u) S))
  /\ NoDup (user_ids S)
  /\ (forall s, In s S -> In (Saving.user_id s) (user_ids S)).
Proof.
  intros HS Hsum.
  assert (forall s, In s S -> In (Saving.user_id s) (user_ids S)) as Hown.
  { intros s Hs. unfold user_ids. apply nodup_In. now apply in_map. }
  assert (forall ids,
            NoDup ids -> (forall u, In u ids <-> In u (user_ids S)) ->
            calculateTotal S = sum_of_user_totals S ids) as Hany.
  { intros ids Hnd Hids.
    assert (per_user_rupiah S ids = total_rupiah S) as Hpart.
    { apply per_user_partition; [exact Hnd|].
      intros s Hs. apply Hids. now apply Hown. }
    unfold sum_of_user_totals. change Number.zero with (Number.of_Z 0).
    rewrite sum_of_user_totals_whole by (auto; lia).
    rewrite calculateTotal_whole by auto. f_equal. lia. }
  split; [apply Hany; [apply NoDup_nodup|tauto]|].
  split; [exact Hany|].
  split; [reflexivity|].
  split; [apply NoDup_nodup|exact Hown].
Qed.

Lemma total_is_sum_of_user_totals_witness :
  let S := [Sample.saving "a" Sample.U1 "50" 3;
            Sample.saving "b" Sample.U2 "75" 4;
            Sample.saving "c" Sample.U1 "100" 5] in
  calculateTotal S = Number.of_Z 225
  /\ calculateTotal S = sum_of_user_totals S (user_ids S)
  /\ calculateUserTotal S Sample.U1 = Number.of_Z 150
  /\ calculateUserTotal S Sample.U2 = Number.of_Z 75.
Proof.
  intros S.
  destruct (total_is_sum_of_user_totals S) as (H & _).
  - repeat constructor; cbn; discriminate.
  - reflexivity.
  - split; [reflexivity|]. split; [exact H|]. split; reflexivity.
Defined.

(** The claim as the spec words it fails on numbers that are not whole:
    with 0.1 from one user and 0.2 and 0.3 from another, the total is
    0.6000000000000001 while the per-user totals 0.1 and 0.5 add up to 0.6,
    in either order. *)
Lemma total_differs_from_sum_of_user_totals :
  let S := [Sample.saving "a" Sample.U1 "0.1" 3;
            Sample.saving "b" Sample.U2 "0.2" 4;
            Sample.saving "c" Sample.U2 "0.3" 5] in
  user_ids S = [Sample.U1; Sample.U2]
  /\ calculateTotal S = Str.parseFloat "0.6000000000000001"
  /\ calculateUserTotal S Sample.U1 = Str.parseFloat "0.1"
  /\ calculateUserTotal S Sample.U2 = Str.parseFloat "0.5"
  /\ sum_of_user_totals S [Sample.U1; Sample.U2] = Str.parseFloat "0.6"
  /\ sum_of_user_totals S [Sample.U2; Sample.U1] = Str.parseFloat "0.6"
  /\ calculateTotal S <> sum_of_user_totals S (user_ids S)
  /\ SFeqb (calculateTotal S) (sum_of_user_totals S (user_ids S)) = false.
Proof.
  cbv zeta. repeat split; try (vm_compute; reflexivity).
  vm_compute. discriminate.
Qed.

End C5.

(** ** The scenarios of the specification, run *)

Section Scenarios.
Import Supabase SavingsTracker.

(** Scenario 1: Alice records 100 with the note "gift". *)
Example scenario_one_saving :
  let E := Sample.online (Some Sample.U1) in
  let w := run [(E, Mount); (E, TypeAmount "100");
                (E, TypeDescription " gift "); (E, Submit)]
             (mounted Sample.two_users) in
  savings (ui w)
  = [Saving.mk "s3-0" Sample.U1 (Number.of_Z 100) "gift" 13]
  /\ calculateTotal (savings (ui w)) = Number.of_Z 100
  /\ calculateUserTotal (savings (ui w)) Sample.U1 = Number.of_Z 100
  /\ calculateUserTotal (savings (ui w)) Sample.U2 = Number.of_Z 0
  /\ amount (ui w) = "" /\ description (ui w) = "".
Proof. vm_compute. repeat split. Qed.

(** Scenarios 2 and 3: Alice records 50 and Bob 75; Alice then asks for
    Bob's row to be deleted, and it stays. *)
Example scenario_two_savers :
  let A := Sample.online (Some Sample.U1) in
  let B := mk_env (Some Sample.U2) (fun _ => Up)
             (fun n => Sample.server (100 + n)) in
  let wa := run [(A, Mount); (A, TypeAmount "50"); (A, Submit)]
              (mounted Sample.two_users) in
  let wb := run [(B, Mount); (B, TypeAmount "75"); (B, Submit)]
              (mounted (db wa)) in
  let wa' := run [(A, Mount); (A, ClickDelete "s103-0")] (mounted (db wb)) in
  map Saving.id (savings (ui wa')) = ["s103-0"; "s3-0"]
  /\ map Saving.user_id (savings (ui wa')) = [Sample.U2; Sample.U1]
  /\ calculateTotal (savings (ui wa')) = Number.of_Z 125
  /\ calculateUserTotal (savings (ui wa')) Sample.U1 = Number.of_Z 50
  /\ calculateUserTotal (savings (ui wa')) Sample.U2 = Number.of_Z 75
  /\ console wa' = []
  /\ db wa' = db wb.
Proof. vm_compute. repeat split. Qed.

End Scenarios.

(** * More of the store *)

Section StoreStatements.


(** INSERT INTO profiles by an authenticated caller, in full: accepted
    exactly when the row's id is the caller's own, the name is present, the
    caller has no profile yet and the account exists. *)
Theorem insert_profile_accepted_iff (u : uuid) (now : timestamptz)
  (v : Db.profile_values) (db : Db.t) :
  match Db.insert_profile (Some u) now v db with
  | (None, db') =>
      Db.pv_id v = Some u
      /\ (exists n, Db.pv_name v = Some n
                    /\ Db.profiles db'
                       = Db.profiles db
                         ++ [Profile.mk u n
                               (Db.or_default (Db.pv_created_at v) now)])
      /\ ~ In u (Db.profile_ids (Db.profiles db))
      /\ In u (Db.auth_users db)
      /\ Db.savings db' = Db.savings db
      /\ Db.auth_users db' = Db.auth_users db
  | (Some e, db') =>
      db' = db
      /\ (Db.pv_id v <> Some u
          \/ Db.pv_name v = None
          \/ In u (Db.profile_ids (Db.profiles db))
          \/ ~ In u (Db.auth_users db))
  end.
Proof.
  unfold Db.insert_profile.
  destruct (Db.pv_id v) as [i|] eqn:Hi;
    [|split; [reflexivity|left; discriminate]].
  destruct (Db.pv_name v) as [n|] eqn:Hn;
    [|split; [reflexivity|right; left; reflexivity]].
  rewrite profiles_insertable. cbn [Profile.id].
  destruct (String.eqb_spec u i) as [<-|Hne]; cbn [negb];
    [|split; [reflexivity|left; congruence]].
  destruct (Db.mem u (Db.profile_ids _)) eqn:Hid;
    [split; [reflexivity|right; right; left; now apply mem_In]|].
  unfold Db.has_user. fold (Db.mem u (Db.auth_users db)).
  destruct (Db.mem u (Db.auth_users db)) eqn:Hfk; cbn [negb];
    [|split; [reflexivity|right; right; right; rewrite <- mem_In; congruence]].
  split; [reflexivity|]. split; [exists n; now split|].
  split; [rewrite <- mem_In; congruence|].
  split; [now apply mem_In|]. now split.
Qed.

End StoreStatements.

Section StoreUpdates.

Lemma Forall2_map_same {A : Type} (R : A -> A -> Prop) (f : A -> A)
  (l : list A) :
  (forall x, In x l -> R x (f x)) -> Forall2 R l (map f l).
Proof.
  induction l as [|a l IH]; intros H; cbn; constructor.
  - apply H; now left.
  - apply IH. intros x Hx. apply H; now right.
Qed.

Lemma Forall2_same {A : Type} (R : A -> A -> Prop) (l : list A) :
  (forall x, In x l -> R x x) -> Forall2 R l l.
Proof.
  intros H. rewrite <- (map_id l) at 2. now apply Forall2_map_same.
Qed.


(** UPDATE profiles, whoever issues it and whatever it sets: row by row,
    the id stays what it was, and a profile is either exactly as before or
    is the caller's own. Savings and accounts are not touched. *)
Theorem update_profiles_keeps_ids (c : Rls.caller)
  (pred : Profile.t -> bool) (set : Profile.t -> Profile.t) (db : Db.t) :
  let db' := snd (Db.update_profiles c pred set db) in
  Forall2
    (fun p p' =>
       Profile.id p' = Profile.id p /\ (p' = p \/ c = Some (Profile.id p)))
    (Db.profiles db) (Db.profiles db')
  /\ Db.savings db' = Db.savings db
  /\ Db.auth_users db' = Db.auth_users db.
Proof.
  cbn zeta.
  assert (Forall2
            (fun p p' =>
               Profile.id p' = Profile.id p
               /\ (p' = p \/ c = Some (Profile.id p)))
            (Db.profiles db) (Db.profiles db)) as Hsame
    by (apply Forall2_same; auto).
  unfold Db.update_profiles.
  set (hit := fun r => Rls.updatable Schema.profiles_policies c r && pred r).
  match goal with
  | |- context [if negb (forallb ?f ?l)
                then (Some (Db.insufficient_privilege _), _) else _] =>
      destruct (forallb f l) eqn:Hrls; [|now repeat split]
  end.
  repeat match goal with
    | |- context [if ?b then _ else _] => destruct b; [now repeat split|]
    end.
  cbn. split; [|now split].
  rewrite forallb_forall in Hrls.
  apply Forall2_map_same. intros r Hr.
  change (Rls.updatable Schema.profiles_policies c r && pred r) with (hit r).
  destruct (hit r) eqn:Hhit; [|auto].
  assert (In (set r) (map set (filter hit (Db.profiles db)))) as Hnew
    by (apply in_map, filter_In; auto).
  unfold hit in Hhit. apply andb_true_iff in Hhit as (Hup & _).
  destruct c as [u|]; [|discriminate Hup].
  rewrite profiles_updatable in Hup. apply String.eqb_eq in Hup.
  pose proof (Hrls _ Hnew) as Hacc.
  rewrite profiles_update_accepted in Hacc. apply String.eqb_eq in Hacc.
  split; [congruence|]. right. congruence.
Qed.

(** No DELETE FROM profiles deletes anything, for any caller: the schema
    has no policy for it. Profiles go only with their account. *)
Theorem delete_profiles_deletes_nothing (c : Rls.caller)
  (pred : Profile.t -> bool) (db : Db.t) :
  Db.delete_profiles c pred db = (0%nat, db).
Proof.
  unfold Db.delete_profiles.
  rewrite filter_none
    by (intros p _; now rewrite profiles_deletable).
  rewrite cascade_nobody; [reflexivity|].
  intros p. now rewrite profiles_deletable.
Qed.

End StoreUpdates.

Section StoreKeys.

(** Removing an account, in a store whose savings all have an owner:
    the account, its profile and exactly its savings go; every other
    account, profile and saving stays. *)
Theorem remove_user_cascades (u : uuid) (db : Db.t) :
  savings_sound db ->
  let db' := Db.remove_user u db in
  (forall x, In x (Db.auth_users db') <-> In x (Db.auth_users db) /\ x <> u)
  /\ (forall p, In p (Db.profiles db')
                <-> In p (Db.profiles db) /\ Profile.id p <> u)
  /\ (forall s, In s (Db.savings db')
                <-> In s (Db.savings db) /\ Saving.user_id s <> u)
  /\ savings_sound db'.
Proof.
  intros Hsound db'.
  split; [|split; [|split]].
  - intros x. unfold db'. cbn. rewrite filter_In, negb_true_iff.
    destruct (String.eqb_spec x u); intuition congruence.
  - intros p. unfold db'. cbn. rewrite filter_In, negb_true_iff.
    destruct (String.eqb_spec (Profile.id p) u); intuition congruence.
  - intros s. unfold db'. cbn. rewrite filter_In, negb_true_iff.
    split; intros (Hs & H); (split; [exact Hs|]).
    + intros Hu. destruct (Hsound s Hs) as (_ & p & Hp & Hid).
      apply not_true_iff_false in H. apply H. apply mem_profile_ids.
      exists p. split; [|exact Hid]. apply filter_In. split; [exact Hp|].
      apply String.eqb_eq. congruence.
    + apply not_true_iff_false. intros Hm.
      apply mem_profile_ids in Hm as (p & Hp & Hid).
      apply filter_In in Hp as (_ & Hp). apply String.eqb_eq in Hp.
      congruence.
  - exact (step_sound db db' Hsound (step_remove_user u db)).
Qed.

Lemma remove_user_cascades_witness :
  let db := Db.mk [Sample.U1; Sample.U2] [Sample.alice; Sample.bob]
              [Sample.saving "a" Sample.U1 "50" 3;
               Sample.saving "b" Sample.U2 "75" 4] in
  Db.remove_user Sample.U1 db
  = Db.mk [Sample.U2] [Sample.bob] [Sample.saving "b" Sample.U2 "75" 4]
  /\ (forall s, In s (Db.savings (Db.remove_user Sample.U1 db))
                <-> In s (Db.savings db) /\ Saving.user_id s <> Sample.U1).
Proof.
  intros db. split; [reflexivity|].
  apply (remove_user_cascades Sample.U1 db).
  intros s [<-|[<-|[]]]; (split; [reflexivity|]);
    [exists Sample.alice|exists Sample.bob]; cbn; auto.
Defined.

Lemma insert_rows_keys (c : Rls.caller) (d : Db.defaults)
  (vs : list Db.saving_values) :
  forall n db,
    NoDup (Db.saving_ids (Db.savings db)) ->
    NoDup (Db.saving_ids (Db.savings (snd (Db.insert_rows c d n vs db))))
    /\ Db.auth_users (snd (Db.insert_rows c d n vs db)) = Db.auth_users db.
Proof.
  induction vs as [|v vs IH]; intros n db H; cbn [Db.insert_rows];
    [now split|].
  destruct (Db.insert_saving c _ _ v db) as [[e|] db'] eqn:Hins;
    [now split|].
  assert (NoDup (Db.saving_ids (Db.savings db'))
          /\ Db.auth_users db' = Db.auth_users db) as (Hk & Hu).
  { unfold Db.insert_saving in Hins.
    destruct (Db.v_user_id v); [|discriminate].
    destruct (Db.v_amount v); [|discriminate].
    destruct (negb (Rls.insertable _ _ _)); [discriminate|].
    destruct (negb (Schema.amount_check _)); [discriminate|].
    destruct (Db.mem _ (Db.saving_ids _)) eqn:Hm; [discriminate|].
    destruct (negb (Db.mem _ _)); [discriminate|].
    injection Hins as <-. cbn. split; [|reflexivity].
    unfold Db.saving_ids in *. rewrite map_app. cbn.
    apply NoDup_app; [exact H|repeat constructor; auto|].
    intros a Ha [<-|[]]. apply mem_In in Ha. cbn in Hm. congruence. }
  destruct (IH (S n) db' Hk) as (H1 & H2). split; congruence.
Qed.

Lemma step_keys (db db' : Db.t) :
  keys_sound db -> step db db' -> keys_sound db'.
Proof.
  intros (Hs & Hp & Hu & Hfk) Hstep.
  pose proof (step_profile_keys db db' Hp Hstep) as Hp'.
  destruct Hstep.
  - (* sign-up *)
    unfold Db.sign_up in *. destruct (Db.has_user db u) eqn:Hhas;
      [now repeat split|].
    cbn. repeat split; auto.
    + apply NoDup_app; [exact Hu|repeat constructor; auto|].
      intros a Ha [<-|[]]. unfold Db.has_user in Hhas.
      apply mem_In in Ha. unfold Db.mem in Ha. congruence.
    + intros p Hin. apply in_app_iff. left. now apply Hfk.
  - (* an account is removed *)
    cbn in *. repeat split.
    + now apply NoDup_ids_filter.
    + exact Hp'.
    + now apply NoDup_filter.
    + intros p Hin. apply filter_In in Hin as (Hin & Hne).
      apply filter_In. split; [now apply Hfk|exact Hne].
  - (* INSERT INTO profiles *)
    unfold Db.insert_profile in *.
    destruct (Db.pv_id v) as [i|]; [|now repeat split].
    destruct (Db.pv_name v) as [n|]; [|now repeat split].
    destruct (negb (Rls.insertable _ _ _)); [now repeat split|].
    destruct (Db.mem i _); [now repeat split|].
    destruct (Db.has_user db i) eqn:Hhas; cbn [negb]; [|now repeat split].
    cbn in *. repeat split; auto.
    intros p Hin. apply in_app_iff in Hin as [Hin|[<-|[]]]; [now apply Hfk|].
    cbn. now apply mem_In.
  - (* UPDATE profiles *)
    unfold Db.update_profiles in *.
    match goal with
    | |- context [if negb (forallb ?f ?l)
                  then (Some (Db.insufficient_privilege _), _) else _] =>
        destruct (forallb f l); [|now repeat split]
    end.
    destruct (Db.distinct _); [|now repeat split].
    match goal with
    | |- context [if negb (forallb ?f ?l)
                  then (Some (Db.foreign_key_violation _), _) else _] =>
        destruct (forallb f l) eqn:Hacc; [|now repeat split]
    end.
    destruct (existsb _ _); [now repeat split|].
    cbn in *. repeat split; auto.
    rewrite forallb_forall in Hacc.
    intros p Hin. apply in_map_iff in Hin as (r & <- & Hr).
    destruct (Rls.updatable Schema.profiles_policies c r && pred r) eqn:Hhit;
      [|now apply Hfk].
    apply mem_In. apply Hacc. apply in_map, filter_In. auto.
  - (* DELETE FROM profiles *)
    unfold Db.delete_profiles in *.
    rewrite cascade_nobody in *
      by (intros; now rewrite profiles_deletable).
    now repeat split.
  - (* INSERT INTO savings *)
    unfold Db.insert_savings in *.
    pose proof (insert_rows_keys c d vs 0%nat db Hs) as (Hk & Hus).
    pose proof (insert_rows_profiles c d vs 0%nat db) as Hps.
    destruct (Db.insert_rows c d 0 vs db) as [[e|] db']; [now repeat split|].
    cbn in *. repeat split; auto; try congruence.
    intros p. rewrite Hps, Hus. apply Hfk.
  - (* UPDATE savings *)
    unfold Db.update_savings in *.
    match goal with
    | |- context [if negb (forallb ?f ?l)
                  then (Some (Db.insufficient_privilege _), _) else _] =>
        destruct (forallb f l); [|now repeat split]
    end.
    match goal with
    | |- context [if negb (forallb ?f ?l)
                  then (Some (Db.check_violation _), _) else _] =>
        destruct (forallb f l); [|now repeat split]
    end.
    destruct (Db.distinct _) eqn:Hd; [|now repeat split].
    match goal with
    | |- context [if negb (forallb ?f ?l)
                  then (Some (Db.foreign_key_violation _), _) else _] =>
        destruct (forallb f l); [|now repeat split]
    end.
    cbn. repeat split; auto. now apply distinct_NoDup.
  - (* DELETE FROM savings *)
    cbn. repeat split; auto. now apply NoDup_ids_filter.
Qed.

Lemma reachable_keys (db : Db.t) : reachable db -> keys_sound db.
Proof.
  induction 1 as [|db db' _ IH Hstep].
  - repeat split; try constructor. intros p [].
  - exact (step_keys db db' IH Hstep).
Qed.

(** In every reachable store the primary keys of both tables are distinct,
    no account is listed twice and every profile belongs to an account;
    every statement and account event keeps it so. *)
Theorem store_keys_stay_sound (db : Db.t) :
  reachable db ->
  keys_sound db
  /\ (forall before after,
        keys_sound before -> step before after -> keys_sound after).
Proof.
  intros H. split; [now apply reachable_keys|exact step_keys].
Qed.

Lemma store_keys_stay_sound_witness :
  let db1 := Db.sign_up Sample.U1 Db.empty in
  let db2 :=
    snd (Db.insert_profile (Some Sample.U1) 1
           (Db.mk_profile_values (Some Sample.U1) (Some "Alice") None) db1) in
  let db3 :=
    snd (Db.insert_savings (Some Sample.U1) (Sample.server 0)
           [Db.mk_saving_values None (Some Sample.U1)
              (Some (Number.of_Z 100)) None None;
            Db.mk_saving_values None (Some Sample.U1)
              (Some (Number.of_Z 20)) None None] db2) in
  Db.saving_ids (Db.savings db3) = ["s0-0"; "s0-1"] /\ keys_sound db3.
Proof.
  intros db1 db2 db3. split; [reflexivity|].
  apply (store_keys_stay_sound db3).
  apply (reachable_step db2); [|apply step_insert_savings].
  apply (reachable_step db1); [|apply step_insert_profile].
  apply (reachable_step Db.empty); [|apply step_sign_up].
  apply reachable_empty.
Defined.

(** A delete by id removes at most one row of a store with distinct keys,
    whoever asks. *)
Theorem delete_by_id_at_most_one (c : Rls.caller) (id : uuid) (db : Db.t) :
  NoDup (Db.saving_ids (Db.savings db)) ->
  (fst (Db.delete_savings c (Supabase.eq_id id) db) <= 1)%nat.
Proof.
  intros H. cbn.
  set (hit := fun r => Rls.deletable Schema.savings_policies c r
                       && Supabase.eq_id id r).
  pose proof (NoDup_ids_filter Saving.id hit (Db.savings db) H) as Hnd.
  assert (forall r, In r (filter hit (Db.savings db)) -> Saving.id r = id)
    as Hid.
  { intros r Hr. apply filter_In in Hr as (_ & Hr). unfold hit in Hr.
    apply andb_true_iff in Hr as (_ & Hr). now apply String.eqb_eq. }
  destruct (filter hit (Db.savings db)) as [|r [|r' l]]; cbn; try lia.
  exfalso. cbn in Hnd. inversion Hnd as [|? ? Hr _]; subst. apply Hr.
  left. rewrite (Hid r), (Hid r'); cbn; auto.
Qed.

Lemma delete_by_id_at_most_one_witness :
  let db := Db.mk [Sample.U1] [Sample.alice]
              [Sample.saving "a" Sample.U1 "50" 3;
               Sample.saving "b" Sample.U1 "75" 4] in
  fst (Db.delete_savings (Some Sample.U1) (Supabase.eq_id "a") db) = 1%nat
  /\ (fst (Db.delete_savings (Some Sample.U1) (Supabase.eq_id "a") db)
       <= 1)%nat.
Proof.
  intros db. split; [reflexivity|].
  apply (delete_by_id_at_most_one (Some Sample.U1) "a" db).
  repeat constructor; cbn; intuition discriminate.
Defined.

(** Insert, then delete by the new key: the store is back where it was.
    The caller who could insert the row can delete it, and it is the only
    row with that key. *)
Theorem insert_then_delete_restores (u fresh : uuid) (now : timestamptz)
  (v : Db.saving_values) (db : Db.t) :
  fst (Db.insert_saving (Some u) fresh now v db) = None ->
  Db.delete_savings (Some u)
    (Supabase.eq_id (Db.or_default (Db.v_id v) fresh))
    (snd (Db.insert_saving (Some u) fresh now v db))
  = (1%nat, db).
Proof.
  intros Hok.
  unfold Db.insert_saving in *.
  destruct (Db.v_user_id v) as [o|]; [|discriminate].
  destruct (Db.v_amount v) as [a|]; [|discriminate].
  rewrite savings_insertable in *. cbn [Saving.user_id] in *.
  destruct (String.eqb_spec u o) as [<-|]; [|discriminate]. cbn [negb] in *.
  destruct (negb (Schema.amount_check a)); [discriminate|].
  cbn [Saving.id] in *.
  destruct (Db.mem _ (Db.saving_ids _)) eqn:Hm; [discriminate|].
  destruct (negb (Db.mem u _)); [discriminate|].
  cbn [snd]. unfold Db.delete_savings. cbn [Db.savings Db.profiles Db.auth_users].
  set (id := Db.or_default (Db.v_id v) fresh) in *.
  assert (forall r, In r (Db.savings db) ->
            Rls.deletable Schema.savings_policies (Some u) r
            && Supabase.eq_id id r = false) as Hold.
  { intros r Hr. apply andb_false_iff. right. unfold Supabase.eq_id.
    apply String.eqb_neq. intros Heq. apply not_true_iff_false in Hm.
    apply Hm. apply mem_In. rewrite <- Heq. unfold Db.saving_ids.
    now apply in_map. }
  rewrite !filter_app. cbn [filter].
  rewrite savings_deletable. cbn [Saving.user_id Saving.id].
  unfold Supabase.eq_id at 2 4. cbn [Saving.id].
  rewrite !String.eqb_refl. cbn [andb negb].
  rewrite (filter_none _ (Db.savings db)) by exact Hold.
  rewrite (filter_all _ (Db.savings db))
    by (intros r Hr; now rewrite (Hold r Hr)).
  rewrite app_nil_r. now destruct db.
Qed.

Lemma insert_then_delete_restores_witness :
  let v := Db.mk_saving_values None (Some Sample.U1)
             (Some (Number.of_Z 100)) (Some "gift") None in
  let db' := snd (Db.insert_saving (Some Sample.U1) "k" 9 v
                    Sample.two_users) in
  Db.savings db' = [Saving.mk "k" Sample.U1 (Number.of_Z 100) "gift" 9]
  /\ Db.delete_savings (Some Sample.U1) (Supabase.eq_id "k") db'
     = (1%nat, Sample.two_users).
Proof.
  intros v db'. split; [reflexivity|].
  apply (insert_then_delete_restores Sample.U1 "k" 9 v Sample.two_users).
  reflexivity.
Defined.

(** The read of one's own profile, in a store with distinct keys: it
    answers with the caller's profile when there is one, and with no row
    and no error when there is none. *)
Theorem own_profile_found_iff_present (u : uuid) (db : Db.t) :
  NoDup (Db.profile_ids (Db.profiles db)) ->
  (forall p, In p (Db.profiles db) -> Profile.id p = u ->
     Supabase.serve_select_profile u (Some u) db
     = Supabase.mk_response (Some p) None)
  /\ ((forall p, In p (Db.profiles db) -> Profile.id p <> u) ->
      Supabase.serve_select_profile u (Some u) db
      = Supabase.mk_response None None).
Proof.
  intros Hnd. split.
  - intros p Hp Hid.
    pose proof (at_most_one_profile u (Some u) db Hnd) as Herr.
    destruct (Supabase.serve_select_profile u (Some u) db) as [[q|] e]
      eqn:Hsel; cbn in Herr; subst e.
    + f_equal. f_equal.
      destruct (serve_select_profile_id u (Some u) db q) as (Hq & Hin);
        [now rewrite Hsel|].
      clear Hsel. unfold Db.profile_ids in Hnd.
      induction (Db.profiles db) as [|r l IH]; [destruct Hp|].
      cbn in Hnd. inversion Hnd as [|? ? Hr Hl]; subst.
      destruct Hp as [->|Hp], Hin as [->|Hin]; auto.
      * exfalso. apply Hr. apply in_map_iff. exists q. split; congruence.
      * exfalso. apply Hr. apply in_map_iff. exists p. split; congruence.
    + exfalso. unfold Supabase.serve_select_profile in Hsel.
      destruct (Db.select_profiles _ _ _) as [|r [|r' l]] eqn:Hf;
        try discriminate.
      assert (In p (Db.select_profiles (Some u)
                      (fun r => String.eqb (Profile.id r) u) db)) as Hin.
      { apply filter_In. split; [exact Hp|].
        rewrite profiles_visible. cbn. now apply String.eqb_eq. }
      rewrite Hf in Hin. destruct Hin.
  - intros Hnone. unfold Supabase.serve_select_profile, Db.select_profiles.
    rewrite filter_none; [reflexivity|].
    intros p Hp. apply andb_false_iff. right. apply String.eqb_neq.
    now apply Hnone.
Qed.

Lemma own_profile_found_iff_present_witness :
  Supabase.serve_select_profile Sample.U2 (Some Sample.U2) Sample.two_users
  = Supabase.mk_response (Some Sample.bob) None
  /\ Supabase.serve_select_profile "u3" (Some "u3") Sample.two_users
     = Supabase.mk_response None None.
Proof.
  split.
  - apply (own_profile_found_iff_present Sample.U2 Sample.two_users);
      [repeat constructor; cbn; intuition discriminate|now right; left
      |reflexivity].
  - apply (own_profile_found_iff_present "u3" Sample.two_users);
      [repeat constructor; cbn; intuition discriminate|].
    intros p [<-|[<-|[]]]; discriminate.
Defined.

End StoreKeys.

(** * More of the component *)

Section HistoryList.
Import Supabase SavingsTracker.

(** The delete button is rendered on exactly the rows that the delete
    policy lets the cached identity delete; with no profile cached it is
    rendered on none. *)
Theorem delete_button_matches_policy (s : State) :
  match currentUser s with
  | Some user =>
      (forall saving,
         isOwner s saving
         = Rls.deletable Schema.savings_policies (Some (Profile.id user))
             saving)
      /\ (forall saving, In saving (offered s)
                         <-> In saving (savings s)
                             /\ Saving.user_id saving = Profile.id user)
  | None => offered s = []
  end.
Proof.
  unfold offered, isOwner. destruct (currentUser s) as [user|].
  - split.
    + intros saving. rewrite savings_deletable. apply String.eqb_sym.
    + intros saving. rewrite filter_In, String.eqb_eq. reflexivity.
  - now apply filter_none.
Qed.

(** Clicking a rendered delete button, when the request is served as the
    cached identity: the row is gone from the store, and no other row is
    touched unless it has the same key and owner. *)
Theorem offered_delete_removes_row (E : Env) (w : World) (user : Profile.t)
  (saving : Saving.t) :
  currentUser (ui w) = Some user ->
  who E = Some (Profile.id user) ->
  net E (List.length (wire w)) = Up ->
  In saving (offered (ui w)) ->
  let w' := snd (handleDeleteSaving (Saving.id saving) E w) in
  ~ In saving (Db.savings (db w'))
  /\ (forall r, In r (Db.savings (db w'))
                <-> In r (Db.savings (db w))
                    /\ ~ owned_target (Profile.id user) (Saving.id saving) r)
  /\ logged "Error deleting saving:" w' = logged "Error deleting saving:" w.
Proof.
  intros Hcu Hwho Hnet Hoff w'.
  assert (Saving.user_id saving = Profile.id user) as Hown.
  { unfold offered, isOwner in Hoff. rewrite Hcu in Hoff.
    apply filter_In in Hoff as (_ & Hoff). now apply String.eqb_eq. }
  assert (db w' = snd (Db.delete_savings (Some (Profile.id user))
                         (eq_id (Saving.id saving)) (db w))
          /\ logged "Error deleting saving:" w'
             = logged "Error deleting saving:" w) as (Hdb & Hlog).
  { unfold w'. rewrite handleDeleteSaving_sent, Hnet, Hwho.
    match goal with
    | |- context [loadData ?E ?w0] =>
        destruct (loadData_frame E w0) as (_ & Hdb & _)
    end.
    split; [exact Hdb|]. now rewrite loadData_logged. }
  assert (forall r, In r (Db.savings (db w'))
                    <-> In r (Db.savings (db w))
                        /\ ~ owned_target (Profile.id user)
                               (Saving.id saving) r) as Hrows.
  { intros r. rewrite Hdb. apply delete_savings_rows. }
  split; [|split; [exact Hrows|exact Hlog]].
  intros Hin. apply Hrows in Hin as (_ & Hnot). apply Hnot. now split.
Qed.

Lemma offered_delete_removes_row_witness :
  let E := Sample.online (Some Sample.U1) in
  let store := Db.mk [Sample.U1; Sample.U2] [Sample.alice; Sample.bob]
                 [Sample.saving "a" Sample.U1 "50" 3;
                  Sample.saving "b" Sample.U2 "75" 4] in
  let w := run [(E, Mount)] (mounted store) in
  offered (ui w) = [Sample.saving "a" Sample.U1 "50" 3]
  /\ ~ In (Sample.saving "a" Sample.U1 "50" 3)
         (Db.savings (db (snd (handleDeleteSaving "a" E w)))).
Proof.
  intros E store w. split; [reflexivity|].
  apply (offered_delete_removes_row E w Sample.alice
           (Sample.saving "a" Sample.U1 "50" 3));
    [reflexivity|reflexivity|reflexivity|now left].
Defined.

(** [getProfileById] answers with the first profile of that id in the
    list, and with nothing exactly when the list has none. *)
Theorem getProfileById_finds (ps : list Profile.t) (userId : uuid) :
  match getProfileById ps userId with
  | Some p =>
      Profile.id p = userId
      /\ exists before after,
           ps = before ++ p :: after
           /\ forall q, In q before -> Profile.id q <> userId
  | None => forall q, In q ps -> Profile.id q <> userId
  end.
Proof.
  unfold getProfileById. induction ps as [|a ps IH]; cbn.
  - intros q [].
  - destruct (String.eqb_spec (Profile.id a) userId) as [Ha|Ha].
    + split; [exact Ha|]. exists [], ps. split; [reflexivity|]. intros q [].
    + destruct (find _ ps) as [p|].
      * destruct IH as (Hp & before & after & Heq & Hb).
        split; [exact Hp|]. exists (a :: before), after.
        split; [cbn; now rewrite Heq|].
        intros q [<-|Hq]; auto.
      * intros q [<-|Hq]; auto.
Qed.

(** After a load cycle whose reads are all served, from a store whose
    savings all have an owner, every row of the history has an author:
    [getProfileById] finds the profile of each saving's [user_id]. *)
Theorem loaded_rows_have_authors (u : uuid) (E : Env) (w : World) :
  who E = Some u ->
  net E (List.length (wire w)) = Up ->
  net E (S (List.length (wire w))) = Up ->
  net E (S (S (List.length (wire w)))) = Up ->
  savings_sound (db w) ->
  let w' := snd (loadData E w) in
  forall saving, In saving (savings (ui w')) ->
    exists p, getProfileById (profiles (ui w')) (Saving.user_id saving)
              = Some p
              /\ Profile.id p = Saving.user_id saving
              /\ In p (Db.profiles (db w)).
Proof.
  intros Hu T1 T2 T3 Hsound w' saving Hin.
  assert (savings (ui w')
          = Db.order_by Saving.created_at false (Db.savings (db w))
          /\ profiles (ui w')
             = Db.order_by Profile.created_at true (Db.profiles (db w)))
    as (Hs & Hp).
  { unfold w'.
    rewrite (loadData_settled E w u Hu) by (now rewrite ?T1, ?T2, ?T3).
    cbn. rewrite T1, T3; cbn.
    now rewrite select_savings_all, select_profiles_all. }
  rewrite Hs in Hin.
  apply (Permutation_in _ (order_by_perm _ _ _)) in Hin.
  destruct (Hsound saving Hin) as (_ & q & Hq & Hid).
  unfold getProfileById.
  destruct (find _ (profiles (ui w'))) as [p|] eqn:Hfind.
  - apply find_some in Hfind as (Hp' & Heq).
    exists p. split; [reflexivity|].
    split; [now apply String.eqb_eq|].
    apply (Permutation_in _ (order_by_perm Profile.created_at true _)).
    now rewrite <- Hp.
  - exfalso.
    assert (In q (profiles (ui w'))) as Hq'.
    { rewrite Hp.
      apply (Permutation_in _
               (Permutation_sym (order_by_perm Profile.created_at true _))).
      exact Hq. }
    pose proof (find_none _ _ Hfind q Hq') as Hne. cbv beta in Hne.
    apply String.eqb_neq in Hne. now apply Hne.
Qed.

Lemma loaded_rows_have_authors_witness :
  let E := Sample.online (Some Sample.U1) in
  let store := Db.mk [Sample.U1; Sample.U2] [Sample.alice; Sample.bob]
                 [Sample.saving "a" Sample.U1 "50" 3;
                  Sample.saving "b" Sample.U2 "75" 4] in
  let w' := snd (loadData E (mounted store)) in
  map (fun s => option_map Profile.name
                  (getProfileById (profiles (ui w')) (Saving.user_id s)))
    (savings (ui w'))
  = [Some "Bob"; Some "Alice"]
  /\ exists p, getProfileById (profiles (ui w')) Sample.U2 = Some p
               /\ Profile.id p = Sample.U2 /\ In p (Db.profiles store).
Proof.
  intros E store w'. split; [reflexivity|].
  apply (loaded_rows_have_authors Sample.U1 E (mounted store)
           eq_refl eq_refl eq_refl eq_refl) with
    (saving := Sample.saving "b" Sample.U2 "75" 4).
  - intros s [<-|[<-|[]]]; (split; [reflexivity|]);
      [exists Sample.alice|exists Sample.bob]; cbn; auto.
  - now left.
Defined.

End HistoryList.

Section WritesThenReload.
Import Supabase SavingsTracker.

(** Newest first: a row newer than all the others is the first of the
    descending order. *)
Lemma order_by_newest (r : Saving.t) (l : list Saving.t) :
  Forall (fun s => Saving.created_at s < Saving.created_at r) l ->
  Db.order_by Saving.created_at false (l ++ [r])
  = r :: Db.order_by Saving.created_at false l.
Proof.
  induction 1 as [|x l Hx _ IH]; [reflexivity|].
  cbn [app Db.order_by fold_right]. fold (Db.order_by Saving.created_at false).
  change (fold_right (Db.place Saving.created_at false) [] (l ++ [r]))
    with (Db.order_by Saving.created_at false (l ++ [r])).
  rewrite IH. cbn [Db.place]. unfold Db.before.
  destruct (Z.leb_spec (Saving.created_at r) (Saving.created_at x));
    [lia|reflexivity].
Qed.

(** A submit that the store accepts, followed by a reload whose reads are
    all served: the store has one more row, built from the cached profile's
    id, the parsed amount and the trimmed description; both input fields
    are empty; nothing is logged; and the history shows the new row, on top
    when it is newer than every other row. *)
Theorem accepted_saving_shows_up (E : Env) (w : World) (user : Profile.t)
  (a : Number.t) :
  let n := List.length (wire w) in
  let row :=
    Saving.mk (Db.gen_random_uuid (server E n) 0) (Profile.id user) a
      (Str.trim (description (ui w))) (Db.now (server E n)) in
  currentUser (ui w) = Some user ->
  who E = Some (Profile.id user) ->
  amount (ui w) <> "" ->
  json_number (Str.parseFloat (amount (ui w))) = Some a ->
  positive a ->
  ~ In (Saving.id row) (Db.saving_ids (Db.savings (db w))) ->
  In (Profile.id user) (Db.profile_ids (Db.profiles (db w))) ->
  (forall k, (k <= 3)%nat -> net E (n + k) = Up) ->
  let w' := snd (handleAddSaving E w) in
  Db.savings (db w') = Db.savings (db w) ++ [row]
  /\ Db.profiles (db w') = Db.profiles (db w)
  /\ amount (ui w') = "" /\ description (ui w') = ""
  /\ console w' = console w
  /\ wire w'
     = wire w
       ++ insert_savings
            [new_saving user (amount (ui w)) (description (ui w))]
          :: reads (Profile.id user)
  /\ savings (ui w')
     = Db.order_by Saving.created_at false (Db.savings (db w) ++ [row])
  /\ In row (savings (ui w'))
  /\ (Forall (fun s => Saving.created_at s < Saving.created_at row)
        (Db.savings (db w)) ->
      savings (ui w')
      = row :: Db.order_by Saving.created_at false (Db.savings (db w))).
Proof.
  cbv zeta. intros Hcu Hwho Ha Hjson Hpos Hfresh Hfk Hnet.
  set (n := List.length (wire w)) in *.
  set (row := Saving.mk (Db.gen_random_uuid (server E n) 0) (Profile.id user)
                a (Str.trim (description (ui w))) (Db.now (server E n))) in *.
  set (v := new_saving user (amount (ui w)) (description (ui w))).
  assert (net E n = Up /\ net E (S n) = Up /\ net E (S (S n)) = Up
          /\ net E (S (S (S n))) = Up) as (T0 & T1 & T2 & T3).
  { repeat split;
      [rewrite <- (Hnet 0%nat) | rewrite <- (Hnet 1%nat)
      | rewrite <- (Hnet 2%nat) | rewrite <- (Hnet 3%nat)];
      try lia; f_equal; lia. }
  assert (Db.insert_saving (who E) (Db.gen_random_uuid (server E n) 0)
            (Db.now (server E n)) v (db w)
          = (None, Db.mk (Db.auth_users (db w)) (Db.profiles (db w))
                     (Db.savings (db w) ++ [row]))) as Hins.
  { unfold Db.insert_saving, v, new_saving.
    cbn [Db.v_user_id Db.v_amount Db.v_id Db.v_description Db.v_created_at
         Db.or_default].
    rewrite Hjson, Hwho, savings_insertable. cbn [Saving.user_id Saving.id].
    rewrite String.eqb_refl. cbn [negb].
    unfold positive, Schema.amount_check in *. rewrite Hpos. cbn [negb].
    destruct (Db.mem _ (Db.saving_ids _)) eqn:Hm;
      [exfalso; apply Hfresh; now apply mem_In|].
    destruct (Db.mem (Profile.id user) _) eqn:Hm2; [reflexivity|].
    exfalso. apply mem_In in Hfk. congruence. }
  pose proof (handleAddSaving_sent E w user Hcu Ha) as Hrun.
  cbv zeta in Hrun. fold n v in Hrun. rewrite T0, Hins in Hrun.
  rewrite Hrun.
  match goal with
  | |- context [loadData E ?w0] =>
      pose proof (loadData_settled E w0 (Profile.id user) Hwho) as Hload
  end.
  cbv zeta in Hload. cbn [wire] in Hload. rewrite length_snoc in Hload.
  fold n in Hload. rewrite T1, T2, T3 in Hload.
  specialize (Hload eq_refl eq_refl eq_refl).
  rewrite Hload.
  cbn [snd ui db console wire savings amount description answer data
       serve_select_savings Db.or_default Db.savings Db.profiles].
  rewrite select_savings_all. cbn [Db.savings].
  rewrite <- app_assoc. cbn [app].
  repeat split.
  - apply (Permutation_in _
             (Permutation_sym (order_by_perm Saving.created_at false _))).
    apply in_app_iff. right. now left.
  - intros Hnew. now apply order_by_newest.
Qed.

Lemma accepted_saving_shows_up_witness :
  let E := Sample.online (Some Sample.U1) in
  let store := Db.mk [Sample.U1; Sample.U2] [Sample.alice; Sample.bob]
                 [Sample.saving "a" Sample.U2 "75" 4] in
  let w := run [(E, Mount); (E, TypeAmount "100");
                (E, TypeDescription " gift ")] (mounted store) in
  let w' := snd (handleAddSaving E w) in
  savings (ui w')
  = [Saving.mk "s3-0" Sample.U1 (Number.of_Z 100) "gift" 13;
     Sample.saving "a" Sample.U2 "75" 4]
  /\ amount (ui w') = "" /\ description (ui w') = "".
Proof.
  intros E store w w'.
  destruct (accepted_saving_shows_up E w Sample.alice (Number.of_Z 100))
    as (_ & _ & H1 & H2 & _ & _ & _ & _ & Htop);
    try reflexivity; try discriminate.
  - cbn. intuition discriminate.
  - cbn. auto.
  - split; [|split; [exact H1|exact H2]].
    apply Htop. repeat constructor.
Defined.

(** A served delete followed by a reload whose reads are all served: the
    history is the store's remaining rows, newest first, and none of them
    is a row of that id owned by the caller. *)
Theorem delete_then_reload_agrees (u id : uuid) (E : Env) (w : World) :
  who E = Some u ->
  (forall k, (k <= 3)%nat -> net E (List.length (wire w) + k) = Up) ->
  let w' := snd (handleDeleteSaving id E w) in
  savings (ui w')
  = Db.order_by Saving.created_at false (Db.savings (db w'))
  /\ (forall r, In r (savings (ui w'))
                <-> In r (Db.savings (db w)) /\ ~ owned_target u id r)
  /\ console w' = console w
  /\ wire w' = wire w ++ delete_savings_eq_id id :: reads u.
Proof.
  cbv zeta. intros Hwho Hnet. set (n := List.length (wire w)) in *.
  assert (net E n = Up /\ net E (S n) = Up /\ net E (S (S n)) = Up
          /\ net E (S (S (S n))) = Up) as (T0 & T1 & T2 & T3).
  { repeat split;
      [rewrite <- (Hnet 0%nat) | rewrite <- (Hnet 1%nat)
      | rewrite <- (Hnet 2%nat) | rewrite <- (Hnet 3%nat)];
      try lia; f_equal; lia. }
  pose proof (handleDeleteSaving_sent id E w) as Hrun.
  cbv zeta in Hrun. fold n in Hrun. rewrite T0, Hwho in Hrun.
  rewrite Hrun.
  match goal with
  | |- context [loadData E ?w0] =>
      pose proof (loadData_settled E w0 u Hwho) as Hload
  end.
  cbv zeta in Hload. cbn [wire] in Hload. rewrite length_snoc in Hload.
  fold n in Hload. rewrite T1, T2, T3 in Hload.
  specialize (Hload eq_refl eq_refl eq_refl).
  rewrite Hload.
  cbn [snd ui db console wire savings answer data serve_select_savings
       Db.or_default].
  rewrite select_savings_all, <- app_assoc. cbn [app].
  split; [reflexivity|]. split; [|now split].
  intros r. rewrite <- delete_savings_rows.
  split; intros Hin.
  - exact (Permutation_in _ (order_by_perm _ _ _) Hin).
  - exact (Permutation_in _ (Permutation_sym (order_by_perm _ _ _)) Hin).
Qed.

Lemma delete_then_reload_agrees_witness :
  let E := Sample.online (Some Sample.U1) in
  let store := Db.mk [Sample.U1; Sample.U2] [Sample.alice; Sample.bob]
                 [Sample.saving "a" Sample.U1 "50" 3;
                  Sample.saving "b" Sample.U2 "75" 4] in
  let w := run [(E, Mount)] (mounted store) in
  savings (ui (snd (handleDeleteSaving "a" E w)))
  = [Sample.saving "b" Sample.U2 "75" 4]
  /\ savings (ui (snd (handleDeleteSaving "b" E w))) = savings (ui w)
  /\ console (snd (handleDeleteSaving "b" E w)) = [].
Proof.
  intros E store w.
  destruct (delete_then_reload_agrees Sample.U1 "b" E w)
    as (_ & _ & Hc & _); [reflexivity|reflexivity|].
  split; [reflexivity|]. split; [reflexivity|exact Hc].
Defined.

End WritesThenReload.

Section HandlersOverall.
Import Supabase SavingsTracker.

Lemma loadData_budget (E : Env) (w : World) :
  exists sent, wire (snd (loadData E w)) = wire w ++ sent
               /\ (List.length sent <= 3)%nat.
Proof.
  destruct (loadData_frame E w) as (_ & _ & _ & _ & _ & _ & k & Hk).
  exists (firstn k (reads (Db.or_default (who E) ""))).
  split; [exact Hk|]. rewrite length_firstn. cbn. lia.
Qed.

(** No handler lets an exception escape, whatever happens to its
    requests; it sends at most three requests on mount, four on a submit or
    a delete, and none while the user types; the console only grows; and
    only a submit or a delete can change the store. *)
Theorem handlers_contain_failures (ev : event) (E : Env) (w : World) :
  let w' := snd (handle ev E w) in
  fst (handle ev E w) = inr tt
  /\ (exists sent, wire w' = wire w ++ sent
                   /\ (List.length sent <= budget ev)%nat)
  /\ (exists entries, console w' = console w ++ entries)
  /\ match ev with
     | Submit | ClickDelete _ => True
     | _ => db w' = db w
     end.
Proof.
  assert (forall w0,
            fst (loadData E w0) = inr tt
            /\ (exists sent, wire (snd (loadData E w0)) = wire w0 ++ sent
                             /\ (List.length sent <= 3)%nat)
            /\ (exists entries,
                  console (snd (loadData E w0)) = console w0 ++ entries)
            /\ db (snd (loadData E w0)) = db w0) as Hload.
  { intros w0.
    destruct (loadData_frame E w0) as (Hr & Hdb & _ & _ & _ & Hc & _).
    repeat split; auto; [apply loadData_budget|].
    destruct Hc as [Hc|(e & Hc)]; [exists []; now rewrite app_nil_r|eauto]. }
  assert (forall w0 rq,
            wire w0 = wire w ++ [rq] -> console w0 = console w ->
            fst (loadData E w0) = inr tt
            /\ (exists sent, wire (snd (loadData E w0)) = wire w ++ sent
                             /\ (List.length sent <= 4)%nat)
            /\ (exists entries,
                  console (snd (loadData E w0)) = console w ++ entries))
    as Hafter.
  { intros w0 rq Hw Hc.
    destruct (Hload w0) as (Hr & (sent & Hs & Hlen) & (en & Hen) & _).
    repeat split; [exact Hr| |].
    - exists (rq :: sent). rewrite Hs, Hw, <- app_assoc. cbn. split; [auto|lia].
    - exists en. now rewrite Hen, Hc. }
  destruct ev as [| v | v | | id]; cbn [handle budget]; cbv zeta.
  - destruct (Hload w) as (H1 & H2 & H3 & H4). auto.
  - cbn. repeat split; [exists []|exists []]; rewrite app_nil_r; auto.
  - cbn. repeat split; [exists []|exists []]; rewrite app_nil_r; auto.
  - destruct (currentUser (ui w)) as [user|] eqn:Hcu;
      [destruct (string_dec (amount (ui w)) "") as [Ha|Ha]|].
    + rewrite handleAddSaving_guarded by auto. cbn.
      repeat split; [exists []|exists []]; rewrite app_nil_r; auto.
      split; [reflexivity|cbn; lia].
    + rewrite (handleAddSaving_sent E w user Hcu Ha).
      destruct (net E _);
        [destruct (Db.insert_saving _ _ _ _ _) as [[e|] db']|..];
        try (cbn; repeat split; [eexists; split; [reflexivity|cbn; lia]
                                |eexists; reflexivity]).
      match goal with
      | |- context [loadData E ?w0] =>
          destruct (Hafter w0 (insert_savings
                      [new_saving user (amount (ui w)) (description (ui w))])
                      eq_refl eq_refl) as (H1 & H2 & H3)
      end.
      auto.
    + rewrite handleAddSaving_guarded by auto. cbn.
      repeat split; [exists []|exists []]; rewrite app_nil_r; auto.
      split; [reflexivity|cbn; lia].
  - rewrite handleDeleteSaving_sent.
    destruct (net E _);
      try (cbn; repeat split; [eexists; split; [reflexivity|cbn; lia]
                              |eexists; reflexivity]).
    match goal with
    | |- context [loadData E ?w0] =>
        destruct (Hafter w0 (delete_savings_eq_id id) eq_refl eq_refl)
          as (H1 & H2 & H3)
    end.
    auto.
Qed.

(** The loading flag: every load cycle ends with it off, whether its reads
    are served, fail or reject or no user is resolved; and once it is off no
    event turns it on again. *)
Theorem loading_ends_and_stays_off (evs : list (Env * event)) (E : Env)
  (w : World) :
  loading (ui (snd (loadData E w))) = false
  /\ loading (ui (run ((E, Mount) :: evs) w)) = false.
Proof.
  assert (forall E0 w0, loading (ui (snd (loadData E0 w0))) = false) as Hoff.
  { intros E0 w0. now destruct (loadData_frame E0 w0) as (_ & _ & _ & _ & H & _). }
  assert (forall ev E0 w0, loading (ui w0) = false ->
            loading (ui (snd (handle ev E0 w0))) = false) as Hstay.
  { intros ev E0 w0 H0. destruct ev as [| v | v | | id]; cbn [handle].
    - apply Hoff.
    - exact H0.
    - exact H0.
    - destruct (currentUser (ui w0)) as [user|] eqn:Hcu;
        [destruct (string_dec (amount (ui w0)) "") as [Ha|Ha]|];
        try (now rewrite handleAddSaving_guarded by auto).
      rewrite (handleAddSaving_sent E0 w0 user Hcu Ha).
      destruct (net E0 _);
        [destruct (Db.insert_saving _ _ _ _ _) as [[e|] db']|..];
        try exact H0. apply Hoff.
    - rewrite handleDeleteSaving_sent.
      destruct (net E0 _); try exact H0. apply Hoff. }
  split; [apply Hoff|].
  cbn [run handle]. generalize (Hoff E w).
  generalize (snd (loadData E w)). clear w.
  induction evs as [|[E0 ev] evs IH]; intros w Hw; cbn [run]; [exact Hw|].
  apply IH. now apply Hstay.
Qed.

(** An amount that is not the empty string but does not parse to a finite
    number (for instance "1e999", or text) is sent as [null]; when the
    request is served by the caller's own store session it is refused for
    the missing amount, the refusal is logged, and neither the component
    nor the store changes. *)
Theorem unparsable_amount_is_refused (E : Env) (w : World)
  (user : Profile.t) :
  currentUser (ui w) = Some user ->
  who E = Some (Profile.id user) ->
  amount (ui w) <> "" ->
  json_number (Str.parseFloat (amount (ui w))) = None ->
  net E (List.length (wire w)) = Up ->
  handleAddSaving E w
  = (inr tt,
     mk_world (ui w) (db w)
       (console w
        ++ [("Error adding saving:",
             PostgrestError (Db.not_null_violation "amount"))])
       (wire w
        ++ [insert_savings
              [Db.mk_saving_values None (Some (Profile.id user)) None
                 (Some (Str.trim (description (ui w)))) None]])).
Proof.
  intros Hcu Hwho Ha Hjson Hnet.
  rewrite (handleAddSaving_sent E w user Hcu Ha), Hnet.
  unfold new_saving, Db.insert_saving.
  cbn [Db.v_user_id Db.v_amount]. now rewrite Hjson.
Qed.

Lemma unparsable_amount_is_refused_witness :
  let E := Sample.online (Some Sample.U1) in
  let w := run [(E, Mount); (E, TypeAmount "1e999")]
             (mounted Sample.two_users) in
  Str.parseFloat "1e999" = S754_infinity false
  /\ console (snd (handleAddSaving E w))
     = [("Error adding saving:",
         PostgrestError (Db.not_null_violation "amount"))]
  /\ db (snd (handleAddSaving E w)) = Sample.two_users.
Proof.
  intros E w. split; [reflexivity|].
  rewrite (unparsable_amount_is_refused E w Sample.alice);
    try reflexivity; try discriminate.
  split; reflexivity.
Defined.

End HandlersOverall.

Section TotalsAtTheEdges.
Import SavingsTracker.

(** A user with no row has the total 0, and a user who wrote every row has
    the grand total, bit for bit, whatever the amounts. *)
Theorem user_total_edges (S : list Saving.t) (u : uuid) :
  (~ In u (map Saving.user_id S) -> calculateUserTotal S u = Number.zero)
  /\ ((forall s, In s S -> Saving.user_id s = u) ->
      calculateUserTotal S u = calculateTotal S).
Proof.
  unfold calculateUserTotal, calculateTotal. split; intros H.
  - rewrite filter_none; [reflexivity|].
    intros s Hs. apply String.eqb_neq. intros Heq. apply H.
    rewrite <- Heq. now apply in_map.
  - rewrite filter_all; [reflexivity|].
    intros s Hs. apply String.eqb_eq. now apply H.
Qed.

Lemma user_total_edges_witness :
  let S := [Sample.saving "a" Sample.U1 "0.1" 3;
            Sample.saving "b" Sample.U1 "0.2" 4;
            Sample.saving "c" Sample.U1 "0.3" 5] in
  calculateUserTotal S Sample.U2 = Number.zero
  /\ calculateUserTotal S Sample.U1 = calculateTotal S.
Proof.
  intros S. destruct (user_total_edges S Sample.U2) as (H0 & _).
  destruct (user_total_edges S Sample.U1) as (_ & H1).
  split.
  - apply H0. cbn. intuition discriminate.
  - apply H1. intros s [<-|[<-|[<-|[]]]]; reflexivity.
Defined.

End TotalsAtTheEdges.

Section TypedAmounts.
Import Supabase SavingsTracker.

Lemma digits_of_uint (d : Decimal.uint) :
  forall acc k,
    exists k',
      Str.digits (list_ascii_of_string (NilEmpty.string_of_uint d))
        (Z.of_nat acc) k
      = (Z.of_nat (Nat.of_uint_acc d acc), k', [])
      /\ (d <> Decimal.Nil -> k < k') /\ k <= k'.
Proof.
  induction d as [|d IH|d IH|d IH|d IH|d IH|d IH|d IH|d IH|d IH|d IH];
    intros acc k;
    [exists k; repeat split; [congruence|lia]|..];
    cbn [NilEmpty.string_of_uint list_ascii_of_string Nat.of_uint_acc];
    match goal with
    | |- context [Nat.of_uint_acc d ?a] =>
        destruct (IH a (k + 1)) as (k' & Heq & _ & Hle);
        exists k'; (split; [|split; [intros _; lia|lia]]);
        rewrite <- Heq; cbn [Str.digits];
        match goal with
        | |- context [Str.digit_of ?c] =>
            let v := eval vm_compute in (Str.digit_of c) in
            change (Str.digit_of c) with v
        end;
        cbv iota beta; f_equal; rewrite Nat.tail_mul_spec; lia
    end.
Qed.

Lemma to_uint_not_nil (n : nat) : Nat.to_uint n <> Decimal.Nil.
Proof.
  rewrite <- (DecimalNat.Unsigned.of_to n) at 1.
  rewrite DecimalNat.Unsigned.to_of. unfold Decimal.unorm.
  destruct (Decimal.nzhead (Nat.to_uint n)); discriminate.
Qed.

(** A decimal numeral parses to the number nearest to the natural number
    it writes. *)
Lemma parseFloat_numeral (n : nat) :
  Str.parseFloat (Sample.numeral n) = Number.of_Z (Z.of_nat n).
Proof.
  unfold Sample.numeral.
  pose proof (to_uint_not_nil n) as Hnil.
  pose proof (DecimalNat.Unsigned.of_to n) as Hval.
  destruct (digits_of_uint (Nat.to_uint n) 0%nat 0) as (k & Hd & Hk & _).
  fold (Nat.of_uint (Nat.to_uint n)) in Hd. rewrite Hval in Hd.
  specialize (Hk Hnil).
  unfold Str.parseFloat.
  assert (Str.trimStart
            (list_ascii_of_string (NilEmpty.string_of_uint (Nat.to_uint n)))
          = list_ascii_of_string (NilEmpty.string_of_uint (Nat.to_uint n))
          /\ Str.starts_with (list_ascii_of_string "Infinity")
               (list_ascii_of_string
                  (NilEmpty.string_of_uint (Nat.to_uint n))) = false
          /\ (match list_ascii_of_string
                      (NilEmpty.string_of_uint (Nat.to_uint n)) with
              | "-"%char :: rest => Str.unsigned_literal true rest
              | "+"%char :: rest => Str.unsigned_literal false rest
              | _ => Str.unsigned_literal false
                       (list_ascii_of_string
                          (NilEmpty.string_of_uint (Nat.to_uint n)))
              end
              = Str.unsigned_literal false
                  (list_ascii_of_string
                     (NilEmpty.string_of_uint (Nat.to_uint n)))))
    as (Htrim & Hinf & Hsign)
    by (destruct (Nat.to_uint n); repeat split; reflexivity).
  rewrite Htrim, Hsign. unfold Str.unsigned_literal. rewrite Hinf.
  change (0 : Z) with (Z.of_nat 0) at 1. rewrite Hd.
  destruct (Z.eqb_spec k 0); [lia|]. cbn [Str.exponent].
  unfold Number.of_decimal, Number.of_Z.
  destruct (Z.of_nat n) as [|p|p] eqn:Hn; [reflexivity| |lia].
  cbn [cond_Zopp]. now rewrite Z.pow_0_r, Z.mul_1_r.
Qed.

Lemma to_Z_of_Z (n : Z) :
  0 <= n < 2 ^ 53 -> Number.to_Z (Number.of_Z n) = n.
Proof.
  intros (H0 & H). destruct n as [|p|p]; [reflexivity| |lia].
  rewrite of_Z_canon by exact H. unfold Number.canon, Number.to_Z.
  cbn [cond_Zopp]. pose proof (bits_bound p H) as Hb.
  rewrite Z.shiftl_div_pow2 by lia.
  replace (- (Z.of_nat (Number.bits p) - 53))
    with (Z.of_nat (53 - Number.bits p)) by lia.
  rewrite shl_value. apply Z.div_mul.
  apply Z.pow_nonzero; lia.
Qed.

(** A positive whole amount typed in decimal, below 2^53, reaches the
    store as exactly that number: the row the client submits carries the
    amount [n], which passes the check of the table. *)
Theorem typed_rupiah_sent_exactly (user : Profile.t) (n : nat)
  (description : string) :
  (0 < n)%nat -> Z.of_nat n < 2 ^ 53 ->
  let row := new_saving user (Sample.numeral n) description in
  Db.v_amount row = Some (Number.of_Z (Z.of_nat n))
  /\ Number.to_Z (Number.of_Z (Z.of_nat n)) = Z.of_nat n
  /\ positive (Number.of_Z (Z.of_nat n))
  /\ Sample.numeral n <> "".
Proof.
  intros Hpos Hlt row.
  assert (Number.of_Z (Z.of_nat n)
          = Number.canon (Pos.of_nat n)) as Hcanon.
  { replace (Z.of_nat n) with (Zpos (Pos.of_nat n)) in * by lia.
    now apply of_Z_canon. }
  split; [|split; [|split]].
  - unfold row, new_saving. cbn [Db.v_amount].
    rewrite parseFloat_numeral, Hcanon. reflexivity.
  - apply to_Z_of_Z. lia.
  - rewrite Hcanon. reflexivity.
  - intros Hempty. pose proof (parseFloat_numeral n) as Hp.
    rewrite Hempty, Hcanon in Hp. discriminate Hp.
Qed.

Lemma typed_rupiah_sent_exactly_witness :
  Sample.numeral 4500 = "4500"
  /\ Db.v_amount (new_saving Sample.alice "4500" "")
     = Some (Number.of_Z 4500)
  /\ Number.to_Z (Number.of_Z 4500) = 4500.
Proof.
  split; [reflexivity|].
  destruct (typed_rupiah_sent_exactly Sample.alice 4500 "")
    as (H1 & H2 & _); [lia|reflexivity|].
  split; [exact H1|exact H2].
Defined.



End TypedAmounts.

Section TrimmedDescription.
Import Supabase SavingsTracker.








End TrimmedDescription.
